(** * SimFin API client (src/index.js): validation and request construction

    A shallow embedding of the [SimFin] class: the JavaScript values its
    methods receive, the Joi schemas it declares, the request options it
    hands to the HTTP collaborator, and the properties of the
    validate-then-fetch methods. *)

From Stdlib Require Import ZArith QArith Ascii String DecimalString List Bool Lia.
From Stdlib Require DecimalPos DecimalZ.
From stdpp Require Import gmap strings list.

Local Open Scope string_scope.
Local Open Scope Z_scope.

(** ** JavaScript values *)

(** A JavaScript number: a finite number is taken at its exact rational
    value (every double is one; both zeros are the rational zero), next to
    [NaN] and the two infinities. *)
Inductive number : Type :=
  | Finite (q : Q)
  | NaN
  | Infinity (negative : bool).

(** Strings are sequences of code units, here the 8-bit characters of
    [string].  Objects are maps from property names to values. *)
#[warnings="-register-all"] Inductive value : Type :=
  | VUndefined
  | VNull
  | VBool (b : bool)
  | VNumber (n : number)
  | VString (s : string)
  | VArray (items : list value)
  | VObject (props : gmap string value).

(** The integer [z] as a JavaScript number. *)
Definition VInt (z : Z) : value := VNumber (Finite (inject_Z z)).

(** What the embedding leaves to the JavaScript runtime, because it rests on
    the IEEE-754 representation or on a JSON parser:
    - [Number_render q] is [Number.prototype.toString] on a finite number
      that is not a safe integer (the shortest digits that read back as
      the same double, in exponent notation from 1e21 on);
    - [parseFloat_finite s] is the number Joi's [number()] reads from a
      string under the default [convert] option, [parseFloat(s)] when
      [Number(s)] is finite and [NaN] otherwise;
    - [JSON_parse s] is [JSON.parse(s)], [None] when it throws, which Joi's
      [array()] and [object()] apply to a string under [convert]. *)
Class Runtime : Type := {
  Number_render : Q -> string;
  parseFloat_finite : string -> number;
  JSON_parse : string -> option value
}.

(** [Array.prototype.join] on already-rendered elements. *)
Fixpoint join (sep : string) (parts : list string) : string :=
  match parts with
  | [] => ""
  | [p] => p
  | p :: rest => p ++ sep ++ join sep rest
  end.

(** The decimal digits of an integer, with a minus sign when negative. *)
Definition decimal (z : Z) : string := NilZero.string_of_int (Z.to_int z).

Definition is_integer (q : Q) : bool := Qnum q mod Zpos (Qden q) =? 0.

Definition truncate (q : Q) : Z := Qnum q / Zpos (Qden q).

(** [Number.isSafeInteger] *)
Definition Number_isSafeInteger (n : number) : bool :=
  match n with
  | Finite q => is_integer q && (Z.abs (truncate q) <=? 2 ^ 53 - 1)
  | _ => false
  end.

Section ToString.
Context `{Runtime}.

(** A safe integer prints as its decimal digits: up to 2^53 every integer
    is a double of its own, so no shorter digit string reads back as it. *)
Definition Number_toString (n : number) : string :=
  match n with
  | Finite q =>
      if Number_isSafeInteger (Finite q)
      then decimal (truncate q)
      else Number_render q
  | NaN => "NaN"
  | Infinity false => "Infinity"
  | Infinity true => "-Infinity"
  end.

(** [ToString], as applied by template literals and by [join]: the string
    the conversion yields when it completes ([ToString_throws] below tells
    when it throws instead).  Inside [join], [undefined] and [null] elements
    render as the empty string.  An object is a plain one, with the
    prototype [Object.prototype], whose [toString] gives
    ["[object Object]"]. *)
Fixpoint ToString (v : value) : string :=
  match v with
  | VUndefined => "undefined"
  | VNull => "null"
  | VBool true => "true"
  | VBool false => "false"
  | VNumber n => Number_toString n
  | VString s => s
  | VArray items =>
      join "," (map (fun x => match x with
                              | VUndefined | VNull => ""
                              | _ => ToString x
                              end) items)
  | VObject _ => "[object Object]"
  end.

(** [items.join(sep)] *)
Definition Array_join (items : list value) (sep : string) : string :=
  join sep (map (fun x => match x with
                          | VUndefined | VNull => ""
                          | _ => ToString x
                          end) items).
End ToString.

(** When [ToString] throws a [TypeError] instead of yielding a string.  The
    values here hold no function, so an own [toString] property of an object
    is never callable: the conversion skips it, gets the object itself back
    from [Object.prototype.valueOf], and throws.  An array is rendered
    through [join], which converts every element but [undefined] and
    [null], and throws when one of them does. *)
Fixpoint ToString_throws (v : value) : bool :=
  match v with
  | VObject props =>
      match props !! "toString" with
      | Some _ => true
      | None => false
      end
  | VArray items =>
      existsb (fun x => match x with
                        | VUndefined | VNull => false
                        | _ => ToString_throws x
                        end) items
  | _ => false
  end.

(** [ToBoolean]: the falsy values are [undefined], [null], [false], zero,
    [NaN] and the empty string. *)
Definition ToBoolean (v : value) : bool :=
  match v with
  | VUndefined | VNull => false
  | VBool b => b
  | VNumber (Finite q) => negb (Qnum q =? 0)
  | VNumber NaN => false
  | VNumber (Infinity _) => true
  | VString s => negb (String.eqb s "")
  | VArray _ | VObject _ => true
  end.

(** A parameter default [p = d]: the default replaces [undefined] only. *)
Definition default_param (d v : value) : value :=
  match v with
  | VUndefined => d
  | _ => v
  end.

(** ** Regular expressions

    The patterns of the schemas are anchored with [^] and [$] and carry no
    flags, so [RegExp.prototype.test] succeeds exactly when the whole string
    belongs to the language of the pattern. *)

Module RegExp.

Inductive regexp : Type :=
  | Void
  | Eps
  | CharSet (p : ascii -> bool)
  | Seq (r1 r2 : regexp)
  | Alt (r1 r2 : regexp)
  | Star (r : regexp).

(** The language of a pattern. *)
Inductive Matches : regexp -> list ascii -> Prop :=
  | MEps : Matches Eps []
  | MCharSet p c : p c = true -> Matches (CharSet p) [c]
  | MSeq r1 r2 s1 s2 :
      Matches r1 s1 -> Matches r2 s2 -> Matches (Seq r1 r2) (s1 ++ s2)
  | MAltL r1 r2 s : Matches r1 s -> Matches (Alt r1 r2) s
  | MAltR r1 r2 s : Matches r2 s -> Matches (Alt r1 r2) s
  | MStarNil r : Matches (Star r) []
  | MStarCons r s1 s2 :
      Matches r s1 -> Matches (Star r) s2 -> Matches (Star r) (s1 ++ s2).

Fixpoint nullable (r : regexp) : bool :=
  match r with
  | Void => false
  | Eps => true
  | CharSet _ => false
  | Seq r1 r2 => nullable r1 && nullable r2
  | Alt r1 r2 => nullable r1 || nullable r2
  | Star _ => true
  end.

Fixpoint deriv (c : ascii) (r : regexp) : regexp :=
  match r with
  | Void => Void
  | Eps => Void
  | CharSet p => if p c then Eps else Void
  | Seq r1 r2 =>
      if nullable r1
      then Alt (Seq (deriv c r1) r2) (deriv c r2)
      else Seq (deriv c r1) r2
  | Alt r1 r2 => Alt (deriv c r1) (deriv c r2)
  | Star r1 => Seq (deriv c r1) (Star r1)
  end.

Fixpoint matchb (r : regexp) (s : list ascii) : bool :=
  match s with
  | [] => nullable r
  | c :: s' => matchb (deriv c r) s'
  end.

(** [pattern.test(s)] for an anchored pattern. *)
Definition test (r : regexp) (s : string) : bool :=
  matchb r (list_ascii_of_string s).

(** Pattern syntax used by the schemas. *)
Definition Chr (c : ascii) : regexp := CharSet (Ascii.eqb c).
Definition Range (lo hi : ascii) : regexp :=
  CharSet (fun c => (nat_of_ascii lo <=? nat_of_ascii c)%nat
                  && (nat_of_ascii c <=? nat_of_ascii hi)%nat).
Definition digit : regexp := Range "0" "9".
Definition Opt (r : regexp) : regexp := Alt r Eps.
Definition Plus (r : regexp) : regexp := Seq r (Star r).
(** [r{1,2}] *)
Definition Rep12 (r : regexp) : regexp := Seq r (Opt r).
Fixpoint Lit (s : string) : regexp :=
  match s with
  | EmptyString => Eps
  | String c s' => Seq (Chr c) (Lit s')
  end.

End RegExp.

(** ** Joi schemas

    The validator is the third-party package [joi]; its schema builders and
    [Joi.validate] are embedded here as far as src/index.js uses them:
    default options ([convert] on, [abortEarly] on, unknown keys refused),
    optional presence unless [required()]. *)

Inductive error : Type :=
  | ValidationError
  | TypeError.

Notation "x |> f" := (f x) (at level 50, left associativity, only parsing).

Module Joi.

Inductive string_rule : Type :=
  | Alphanum
  | StrMin (limit : Z)
  | StrMax (limit : Z)
  | Regex (pattern : RegExp.regexp).

Inductive number_rule : Type :=
  | Integer
  | NumMin (limit : Z)
  | NumMax (limit : Z).

#[warnings="-register-all"] Inductive schema : Type :=
  | String_ (valids : option (list String.string)) (rules : list string_rule)
  | Number_ (rules : list number_rule)
  | Array_ (inclusions : list schema)
  | Alternatives_ (matches : list schema)
  | Object_ (children : option (list (String.string * schema)))
  | Required_ (s : schema).

(** [/^[a-zA-Z0-9]+$/], the pattern behind [alphanum()]. *)
Definition alphanum_pattern : RegExp.regexp :=
  RegExp.Plus (RegExp.Alt (RegExp.Range "a" "z")
                 (RegExp.Alt (RegExp.Range "A" "Z") (RegExp.Range "0" "9"))).

Definition string_rule_ok (str : String.string) (r : string_rule) : bool :=
  match r with
  | Alphanum => RegExp.test alphanum_pattern str
  | StrMin limit => limit <=? Z.of_nat (String.length str)
  | StrMax limit => Z.of_nat (String.length str) <=? limit
  | Regex pattern => RegExp.test pattern str
  end.

Definition number_rule_ok (q : Q) (r : number_rule) : bool :=
  match r with
  | Integer => Number_isSafeInteger (Finite q)
  | NumMin limit => Qle_bool (inject_Z limit) q
  | NumMax limit => Qle_bool q (inject_Z limit)
  end.

(** A number passes [number()] when it is finite and meets every rule;
    [NaN] fails the base type and the infinities are invalid values. *)
Definition number_ok (rules : list number_rule) (n : number) : bool :=
  match n with
  | Finite q => forallb (number_rule_ok q) rules
  | NaN | Infinity _ => false
  end.

Section Validate.
Context `{Runtime}.

(** [accepts s v]: validating [v] against [s] yields no error. *)
Fixpoint accepts (s : schema) (v : value) : bool :=
  match s with
  | Required_ s' =>
      match v with
      | VUndefined => false
      | _ => accepts s' v
      end
  | String_ valids rules =>
      match v with
      | VUndefined => true
      | VString str =>
          match valids with
          | Some allowed =>
              (* allowOnly: nothing but the listed values *)
              existsb (String.eqb str) allowed
          | None =>
              (* the empty string is an invalid value of string() *)
              negb (String.eqb str "") && forallb (string_rule_ok str) rules
          end
      | _ => false
      end
  | Number_ rules =>
      match v with
      | VUndefined => true
      | VNumber n => number_ok rules n
      | VString str => number_ok rules (parseFloat_finite str)
      | _ => false
      end
  | Array_ inclusions =>
      let item_ok (x : value) :=
        match x with
        | VUndefined => false (* sparse arrays are refused *)
        | _ =>
            match inclusions with
            | [] => true
            | _ => existsb (fun i => accepts i x) inclusions
            end
        end in
      match v with
      | VUndefined => true
      | VArray items => forallb item_ok items
      | VString str =>
          match JSON_parse str with
          | Some (VArray items) => forallb item_ok items
          | _ => false
          end
      | _ => false
      end
  | Alternatives_ matches =>
      match v with
      | VUndefined => true
      | _ => existsb (fun m => accepts m v) matches
      end
  | Object_ children =>
      let object_ok (props : gmap String.string value) :=
        match children with
        | None => true (* no keys declared: any object *)
        | Some children =>
            forallb (fun kv => accepts (snd kv)
                                 (default VUndefined (props !! fst kv)))
                    children
            && forallb (fun k => existsb (String.eqb k) (map fst children))
                       (map fst (map_to_list props))
        end in
      match v with
      | VUndefined => true
      | VObject props => object_ok props
      | VString str =>
          match JSON_parse str with
          | Some (VObject props) => object_ok props
          | _ => false
          end
      | _ => false
      end
  end.

(** [const { error } = Joi.validate(v, s)]; [None] is [error === null]. *)
Definition validate (v : value) (s : schema) : option error :=
  if accepts s v then None else Some ValidationError.
End Validate.

(** The schema builders.  Each is a method of the schema types that show
    in its cases; src/index.js calls none on any other type, where the
    embedding leaves the schema as it is. *)
Definition string : schema := String_ None [].
Definition number : schema := Number_ [].
Definition array : schema := Array_ [].
Definition object : schema := Object_ None.
Definition alternatives : schema := Alternatives_ [].

Definition alphanum (s : schema) : schema :=
  match s with
  | String_ valids rules => String_ valids (rules ++ [Alphanum])%list
  | _ => s
  end.

Definition regex (pattern : RegExp.regexp) (s : schema) : schema :=
  match s with
  | String_ valids rules => String_ valids (rules ++ [Regex pattern])%list
  | _ => s
  end.

Definition valid (values : list String.string) (s : schema) : schema :=
  match s with
  | String_ None rules => String_ (Some values) rules
  | String_ (Some allowed) rules => String_ (Some (allowed ++ values)%list) rules
  | _ => s
  end.

Definition min (limit : Z) (s : schema) : schema :=
  match s with
  | String_ valids rules => String_ valids (rules ++ [StrMin limit])%list
  | Number_ rules => Number_ (rules ++ [NumMin limit])%list
  | _ => s
  end.

Definition max (limit : Z) (s : schema) : schema :=
  match s with
  | String_ valids rules => String_ valids (rules ++ [StrMax limit])%list
  | Number_ rules => Number_ (rules ++ [NumMax limit])%list
  | _ => s
  end.

Definition integer (s : schema) : schema :=
  match s with
  | Number_ rules => Number_ (rules ++ [Integer])%list
  | _ => s
  end.

Definition items (inclusion : schema) (s : schema) : schema :=
  match s with
  | Array_ inclusions => Array_ (inclusions ++ [inclusion])%list
  | _ => s
  end.

Definition try (schemas : list schema) (s : schema) : schema :=
  match s with
  | Alternatives_ matches => Alternatives_ (matches ++ schemas)%list
  | _ => s
  end.

Definition keys (children : list (String.string * schema)) (s : schema) : schema :=
  match s with
  | Object_ None => Object_ (Some children)
  | Object_ (Some existing) => Object_ (Some (existing ++ children)%list)
  | _ => s
  end.

Definition required (s : schema) : schema := Required_ s.

End Joi.

(** ** The constants of src/index.js *)

Definition statementTypes : list string := ["pl"; "bs"; "cf"].

Definition periodTypes : list string :=
  ["Q1"; "Q2"; "Q3"; "Q4"; "H1"; "H2"; "9M"; "FY"].

(** The object literal [indicatorsMap], its properties in source order. *)
Definition indicatorsMap : list (string * string) :=
  [ ("0-3", "Number of employees");
    ("0-5", "Founding year");
    ("0-6", "Headquarter location");
    ("0-73", "Sector classification");
    ("0-71", "Ticker");
    ("0-31", "Last closing price");
    ("4-11", "Market capitalisation");
    ("0-64", "Common shares outstanding");
    ("0-65", "Preferred shares outstanding");
    ("0-66", "Average shares outstanding, basic");
    ("0-67", "Average shares outstanding, diluted");
    ("1-1", "Revenues");
    ("1-2", "Cost of goods sold");
    ("1-4", "Gross profit");
    ("1-11", "Operating expenses");
    ("1-12", "Selling, general and administrative");
    ("1-15", "Research and development expenses");
    ("1-19", "Operating income (EBIT)");
    ("4-10", "EBITDA");
    ("1-21", "Net interest expense");
    ("1-28", "Pretax income (adjusted)");
    ("1-43", "Pretax income");
    ("1-44", "Income taxes");
    ("1-49", "Income from continuing operations");
    ("1-58", "Net income (common shareholders)");
    ("2-1", "Cash and cash-equivalents");
    ("2-5", "Net receivables");
    ("2-21", "Total current assets");
    ("2-22", "Net property, plant and equipment");
    ("2-41", "Total assets");
    ("2-43", "Accounts payable");
    ("2-47", "Current debt");
    ("2-57", "Total current liabilities");
    ("2-58", "Non current debt");
    ("4-6", "Total debt");
    ("2-73", "Total liabilities");
    ("2-74", "Preferred equity");
    ("2-76", "Common stock");
    ("2-82", "Equity before minorities");
    ("2-83", "Minority interest");
    ("3-2", "Depreciation and amortisation");
    ("3-7", "Change in working capital");
    ("3-13", "Operating cash flow");
    ("3-14", "Net change in PP & E and intangibles");
    ("3-31", "Investing cash flow");
    ("3-32", "Dividends paids");
    ("3-43", "Financing cash flow");
    ("3-46", "Net change in cash");
    ("4-25", "Free cash flow");
    ("4-0", "Gross margin");
    ("4-1", "Operating margin");
    ("4-2", "Net profit margin");
    ("4-7", "Return on equity");
    ("4-9", "Return on assets");
    ("4-28", "Free cash flow to net income");
    ("4-3", "Current ratio");
    ("4-4", "Liabilities to equity ratio");
    ("4-5", "Debt to assets ratio");
    ("4-12", "Earnings per share, basic");
    ("4-13", "Earnings per share, diluted");
    ("4-17", "Sales per share");
    ("4-18", "Book value per share");
    ("4-26", "Free cash flow per share");
    ("4-29", "Dividends per share");
    ("4-14", "Price to earnings ratio");
    ("4-15", "Price to sales ratio");
    ("4-16", "Price to book value");
    ("4-27", "Price to free cash flow");
    ("4-20", "Enterprise value");
    ("4-21", "EV/EBITDA");
    ("4-22", "EV/Sales");
    ("4-31", "EV/FCF");
    ("4-23", "Book to market value");
    ("4-24", "Operating income / EV");
    ("4-30", "Pietroski F-Score") ].

(** [/^[0-4]-(\d){1,2}$/] *)
Definition indicator_pattern : RegExp.regexp :=
  RegExp.Seq (RegExp.Range "0" "4")
    (RegExp.Seq (RegExp.Chr "-") (RegExp.Rep12 RegExp.digit)).

(** [/^TTM(-(\d){1,2}(\.(0|25|5|50|75))?)?$/] *)
Definition ttm_pattern : RegExp.regexp :=
  RegExp.Seq (RegExp.Lit "TTM")
    (RegExp.Opt
       (RegExp.Seq (RegExp.Chr "-")
          (RegExp.Seq (RegExp.Rep12 RegExp.digit)
             (RegExp.Opt
                (RegExp.Seq (RegExp.Chr ".")
                   (RegExp.Alt (RegExp.Lit "0")
                      (RegExp.Alt (RegExp.Lit "25")
                         (RegExp.Alt (RegExp.Lit "5")
                            (RegExp.Alt (RegExp.Lit "50")
                               (RegExp.Lit "75")))))))))).

(** SimFin API parameters. *)
Module simfinParameters.
Definition ticker : Joi.schema :=
  Joi.string |> Joi.alphanum |> Joi.min 2 |> Joi.max 10.
Definition companyId : Joi.schema :=
  Joi.number |> Joi.integer.
Definition indicators : Joi.schema :=
  Joi.array |> Joi.items (Joi.string |> Joi.regex indicator_pattern).
Definition statementType : Joi.schema :=
  Joi.string |> Joi.valid statementTypes.
Definition periodType : Joi.schema :=
  Joi.alternatives |> Joi.try
    [ Joi.string |> Joi.valid periodTypes;
      Joi.string |> Joi.regex ttm_pattern ].
Definition fiscalYear : Joi.schema :=
  Joi.number |> Joi.integer |> Joi.min 1900 |> Joi.max 2018.
End simfinParameters.

(** Company statements request validation schema. *)
Definition statementRequestSchema : Joi.schema :=
  Joi.object |> Joi.keys
    [ ("companyId", simfinParameters.companyId |> Joi.required);
      ("statementType", simfinParameters.statementType |> Joi.required);
      ("periodType", simfinParameters.periodType |> Joi.required);
      ("fiscalYear", simfinParameters.fiscalYear |> Joi.required) ].

(** Company TTM financial ratios request validation schema. *)
Definition ttmFinancialRatiosRequestSchema : Joi.schema :=
  Joi.object |> Joi.keys
    [ ("companyId", simfinParameters.companyId |> Joi.required);
      ("indicators", simfinParameters.indicators) ].

(** ** The HTTP collaborator and the promises of the facade *)

(** The [options] object handed to [rp] (request-promise). *)
Record options : Type := {
  method : string;
  uri : string;
  qs : gmap string value;
  json : bool
}.

(** What an [async] method settles to: a rejection raised before any
    request, or the promise [rp(options)] of the collaborator. *)
Inductive promise : Type :=
  | Rejected (e : error)
  | Rp (o : options).

(** The only effect of the class is the call to [rp]; a run of a method
    records the options of every such call, in order, next to its result. *)
Record run (A : Type) : Type := {
  calls : list options;
  result : A
}.
Arguments calls {A} _.
Arguments result {A} _.

Definition pure {A : Type} (x : A) : run A := {| calls := []; result := x |}.

(** [Promise.reject(e)], and an exception thrown inside an [async] body. *)
Definition reject (e : error) : run promise := pure (Rejected e).

(** [rp(options)] *)
Definition rp (o : options) : run promise := {| calls := [o]; result := Rp o |}.

(** Object spread [{ ...target, ...source }]: the properties of [source]
    are copied over those already set; spreading [undefined] copies none. *)
Definition spread (target : gmap string value)
    (source : option (gmap string value)) : gmap string value :=
  match source with
  | Some props => props ∪ target
  | None => target
  end.

(** [v.join(sep)]: only arrays have the method, on any other validated
    value the call throws a [TypeError]. *)
Definition call_join `{Runtime} (v : value) (sep : string) : option string :=
  match v with
  | VArray items => Some (Array_join items sep)
  | _ => None
  end.

(** ** class SimFin *)

Record SimFin : Type := {
  baseURL : string;
  token : value
}.

Definition constructor (token : value) : SimFin :=
  {| baseURL := "https://simfin.com/api/v1/"; token := token |}.

Section Methods.
Context `{Runtime}.
Variable this : SimFin.

(** [params] is [None] when the argument is omitted. *)
Definition makeRequest (route : string) (method : string)
    (params : option (gmap string value)) : run promise :=
  let options :=
    {| method := method;
       uri := baseURL this ++ route;
       qs := spread {[ "api-key" := token this ]} params;
       json := true |} in
  rp options.

Definition getCompanyIdByTicker (ticker : value) : run promise :=
  match Joi.validate ticker simfinParameters.ticker with
  | Some error => reject error
  | None =>
      makeRequest ("info/find-id/ticker/" ++ ToString ticker) "GET" None
  end.

(** The template literal is evaluated before [makeRequest] is called: when
    the conversion of the argument throws, the [async] method rejects with
    the [TypeError] and nothing is sent.  The validated methods convert only
    an argument that passed its schema (a number, a string, or an omitted
    ticker), on which the conversion never throws. *)
Definition getCompanyIdByName (name : value) : run promise :=
  if ToString_throws name then reject TypeError
  else makeRequest ("info/find-id/name-search/" ++ ToString name) "GET" None.

Definition getAllCompanies : run promise :=
  makeRequest "info/all-entities" "GET" None.

Definition getCompanyDataById (companyId : value) : run promise :=
  if ToString_throws companyId then reject TypeError
  else makeRequest ("companies/id/" ++ ToString companyId) "GET" None.

Definition getAvailableCompanyStatements (companyId : value) : run promise :=
  if ToString_throws companyId then reject TypeError
  else
    makeRequest ("companies/id/" ++ ToString companyId ++ "/statements/list")
      "GET" None.

Definition getStatementData
    (companyId statementType periodType fiscalYear standardised : value)
    : run promise :=
  let standardised := default_param (VBool false) standardised in
  match Joi.validate
          (VObject {[ "companyId" := companyId;
                      "statementType" := statementType;
                      "periodType" := periodType;
                      "fiscalYear" := fiscalYear ]})
          statementRequestSchema with
  | Some error => reject error
  | None =>
      let params : gmap string value :=
        {[ "stype" := statementType;
           "ptype" := periodType;
           "fyear" := fiscalYear ]} in
      let url := "companies/id/" ++ ToString companyId ++ "/statements/" in
      let url :=
        if ToBoolean standardised
        then url ++ "standardised"
        else url ++ "original" in
      makeRequest url "GET" (Some params)
  end.

Definition getTTMFinancialRatios (companyId indicators : value)
    : run promise :=
  match Joi.validate
          (VObject {[ "companyId" := companyId;
                      "indicators" := indicators ]})
          ttmFinancialRatiosRequestSchema with
  | Some error => reject error
  | None =>
      (* [let params; if (indicators) params = { indicators: ... }] *)
      let params : error + option (gmap string value) :=
        if ToBoolean indicators
        then
          match call_join indicators "," with
          | Some joined => inr (Some {[ "indicators" := VString joined ]})
          | None => inl TypeError
          end
        else inr None in
      match params with
      | inl thrown => reject thrown
      | inr params =>
          makeRequest ("companies/id/" ++ ToString companyId ++ "/ratios")
            "GET" params
      end
  end.

Definition getFinancialIndicators : run (list (string * string)) :=
  pure indicatorsMap.

Definition getStatementTypes : run (list string) := pure statementTypes.

Definition getPeriodTypes : run (list string) := pure periodTypes.
End Methods.

(** A runtime that renders no inexact number and reads nothing from a
    string: enough to run the methods on arguments of the documented types
    (safe integers, strings, arrays of strings). *)
Definition plain_runtime : Runtime :=
  {| Number_render := fun _ => "";
     parseFloat_finite := fun _ => NaN;
     JSON_parse := fun _ => None |}.

(** ** The constraints of the specification *)

(** The characters of [/[a-zA-Z0-9]/]. *)
Definition alphanumeric_char (c : ascii) : Prop :=
  let n := nat_of_ascii c in
  (48 <= n <= 57)%nat \/ (65 <= n <= 90)%nat \/ (97 <= n <= 122)%nat.

Definition alphanumeric (s : string) : Prop :=
  Forall alphanumeric_char (list_ascii_of_string s).

(** The ticker constraint of the specification: an alphanumeric string of
    length 2 to 10. *)
Definition ticker_constraint (s : string) : Prop :=
  alphanumeric s /\ (2 <= String.length s <= 10)%nat.

(** [Number.isSafeInteger] on an integer. *)
Definition safe_integer (z : Z) : Prop := Z.abs z <= 2 ^ 53 - 1.

(** The number [Joi.number()] validates for [v]: [v] itself when it is a
    number, the number read from it when it is a string. *)
Definition Joi_number `{Runtime} (v : value) : option number :=
  match v with
  | VNumber n => Some n
  | VString s => Some (parseFloat_finite s)
  | _ => None
  end.

(** [v] is the integer [z], as a number or as a string read by Joi. *)
Definition integer_value `{Runtime} (v : value) (z : Z) : Prop :=
  exists q, Joi_number v = Some (Finite q) /\ (q == inject_Z z)%Q.

(** The constraints of the specification on the statement fields. *)
Definition fiscalYear_constraint `{Runtime} (v : value) : Prop :=
  exists z, integer_value v z /\ 1900 <= z <= 2018.

Definition statementType_constraint (v : value) : Prop :=
  exists s, v = VString s /\ In s statementTypes.

Definition periodType_constraint (v : value) : Prop :=
  exists s, v = VString s
            /\ (In s periodTypes
                \/ RegExp.Matches ttm_pattern (list_ascii_of_string s)).

(** An indicator code: a string of the language of [indicator_pattern]. *)
Definition indicator_code (s : string) : Prop :=
  RegExp.Matches indicator_pattern (list_ascii_of_string s).

(** The indicator codes and TTM period types, character by character. *)
Definition digit_char (c : ascii) : Prop :=
  (48 <= nat_of_ascii c <= 57)%nat.

Definition category_char (c : ascii) : Prop :=
  (48 <= nat_of_ascii c <= 52)%nat.

Definition one_or_two_digits (w : list ascii) : Prop :=
  Forall digit_char w /\ (1 <= length w <= 2)%nat.

Definition ttm_fractions : list string := ["0"; "25"; "5"; "50"; "75"].

Definition indicator_code_shape (w : list ascii) : Prop :=
  exists c digits,
    w = c :: "-"%char :: digits /\ category_char c /\ one_or_two_digits digits.

Definition ttm_shape (w : list ascii) : Prop :=
  exists tail,
    w = (list_ascii_of_string "TTM" ++ tail)%list
    /\ (tail = []
        \/ exists digits fraction,
             tail = ("-"%char :: digits ++ fraction)%list
             /\ one_or_two_digits digits
             /\ (fraction = []
                 \/ exists f, In f ttm_fractions
                              /\ fraction = "."%char :: list_ascii_of_string f)).

Definition companyId_constraint `{Runtime} (v : value) : Prop :=
  exists z, integer_value v z /\ safe_integer z.

(** ** The operations of the facade *)

(** A call of a public method together with its arguments. *)
Inductive operation : Type :=
  | GetCompanyIdByTicker (ticker : value)
  | GetCompanyIdByName (name : value)
  | GetAllCompanies
  | GetCompanyDataById (companyId : value)
  | GetAvailableCompanyStatements (companyId : value)
  | GetStatementData
      (companyId statementType periodType fiscalYear standardised : value)
  | GetTTMFinancialRatios (companyId indicators : value)
  | GetFinancialIndicators
  | GetStatementTypes
  | GetPeriodTypes.

(** The requests an operation issues. *)
Definition requests `{Runtime} (this : SimFin) (op : operation) : list options :=
  match op with
  | GetCompanyIdByTicker ticker => calls (getCompanyIdByTicker this ticker)
  | GetCompanyIdByName name => calls (getCompanyIdByName this name)
  | GetAllCompanies => calls (getAllCompanies this)
  | GetCompanyDataById companyId => calls (getCompanyDataById this companyId)
  | GetAvailableCompanyStatements companyId =>
      calls (getAvailableCompanyStatements this companyId)
  | GetStatementData companyId statementType periodType fiscalYear standardised =>
      calls (getStatementData this companyId statementType periodType
               fiscalYear standardised)
  | GetTTMFinancialRatios companyId indicators =>
      calls (getTTMFinancialRatios this companyId indicators)
  | GetFinancialIndicators => calls getFinancialIndicators
  | GetStatementTypes => calls getStatementTypes
  | GetPeriodTypes => calls getPeriodTypes
  end.

(** The arguments of an operation that carry the name of a field of
    [simfinParameters], each with the schema declared for that field. *)
Definition declared_fields (op : operation) : list (Joi.schema * value) :=
  match op with
  | GetCompanyIdByTicker ticker => [(simfinParameters.ticker, ticker)]
  | GetCompanyDataById companyId => [(simfinParameters.companyId, companyId)]
  | GetAvailableCompanyStatements companyId =>
      [(simfinParameters.companyId, companyId)]
  | GetStatementData companyId statementType periodType fiscalYear _ =>
      [ (simfinParameters.companyId, companyId);
        (simfinParameters.statementType, statementType);
        (simfinParameters.periodType, periodType);
        (simfinParameters.fiscalYear, fiscalYear) ]
  | GetTTMFinancialRatios companyId indicators =>
      [ (simfinParameters.companyId, companyId);
        (simfinParameters.indicators, indicators) ]
  | GetCompanyIdByName _ | GetAllCompanies
  | GetFinancialIndicators | GetStatementTypes | GetPeriodTypes => []
  end.

(** No request goes out with a field that fails its declared schema. *)
Definition fields_valid_when_requested `{Runtime} (this : SimFin)
    (op : operation) : Prop :=
  requests this op <> [] ->
  Forall (fun field => Joi.accepts (fst field) (snd field) = true)
         (declared_fields op).

(** The methods that hand their argument to [makeRequest] without a call
    to [Joi.validate], although a schema is declared for it. *)
Definition forwards_unvalidated (op : operation) : bool :=
  match op with
  | GetCompanyDataById _ | GetAvailableCompanyStatements _ => true
  | _ => false
  end.

(** A method rejected with a validation error before any request. *)
Definition rejected_unsent (r : run promise) : Prop :=
  calls r = [] /\ result r = Rejected ValidationError.

(** A client to run the methods on. *)
Definition client : SimFin := constructor (VString "token").

(** ** Vocabulary of the further properties *)

(** The four fields of a statement request all meet their constraints. *)
Definition statement_request_valid `{Runtime}
    (companyId statementType periodType fiscalYear : value) : Prop :=
  companyId_constraint companyId
  /\ statementType_constraint statementType
  /\ periodType_constraint periodType
  /\ fiscalYear_constraint fiscalYear.

(** An array element the [indicators] schema lets through: a string shaped
    as an indicator code. *)
Definition indicator_item (x : value) : Prop :=
  exists s, x = VString s /\ indicator_code_shape (list_ascii_of_string s).

(** A string without a comma. *)
Definition comma_free (s : string) : Prop :=
  ~ In ","%char (list_ascii_of_string s).

(** Reading back the decimal digits of an integer. *)
Definition parse_decimal (s : string) : option Z :=
  option_map Z.of_int (NilZero.int_of_string s).

(** The value under ['indicators'] in the query of a single request. *)
Definition sent_indicators (requests : list options) : option value :=
  match requests with
  | [o] => qs o !! "indicators"
  | _ => None
  end.

(** * Properties *)

(** ** The matcher decides the language of a pattern *)

Module RegExpFacts.
Import RegExp.

Lemma nullable_spec (r : regexp) : nullable r = true <-> Matches r [].
Proof.
  induction r as [| |p|r1 IH1 r2 IH2|r1 IH1 r2 IH2|r IH]; simpl.
  - split; [discriminate | inversion 1].
  - split; [constructor | reflexivity].
  - split; [discriminate | inversion 1].
  - rewrite andb_true_iff, IH1, IH2. split.
    + intros [H1 H2]. apply (MSeq _ _ [] [] H1 H2).
    + inversion 1 as [| |? ? s1 s2 H1 H2 E1 E2| | | |]; subst.
      apply app_eq_nil in E2 as [-> ->]. auto.
  - rewrite orb_true_iff, IH1, IH2. split.
    + intros [H1|H2]; [apply MAltL | apply MAltR]; assumption.
    + inversion 1; subst; auto.
  - split; [constructor | reflexivity].
Qed.

(** A non-empty word of a starred pattern starts with a non-empty word of
    the pattern. *)
Lemma star_cons (r : regexp) (c : ascii) (s : list ascii) :
  Matches (Star r) (c :: s) ->
  exists s1 s2, s = (s1 ++ s2)%list /\ Matches r (c :: s1) /\ Matches (Star r) s2.
Proof.
  intros M. remember (Star r) as r' eqn:Er. remember (c :: s) as w eqn:Ew.
  induction M as [| | | | | |r0 s1 s2 M1 _ M2 IH2]; try discriminate.
  injection Er as ->. destruct s1 as [|c1 s1]; simpl in Ew.
  - apply IH2; auto.
  - injection Ew as -> <-. exists s1, s2. auto.
Qed.

Lemma deriv_spec (r : regexp) (c : ascii) (s : list ascii) :
  Matches (deriv c r) s <-> Matches r (c :: s).
Proof.
  revert s.
  induction r as [| |p|r1 IH1 r2 IH2|r1 IH1 r2 IH2|r IH]; intros s; simpl.
  - split; inversion 1.
  - split; inversion 1.
  - destruct (p c) eqn:Ep; split.
    + inversion 1; subst. constructor. assumption.
    + inversion 1; subst. constructor.
    + inversion 1.
    + inversion 1; subst. congruence.
  - assert (Hseq : Matches (Seq (deriv c r1) r2) s ->
                   Matches (Seq r1 r2) (c :: s)).
    { inversion 1 as [| |? ? s1 s2 H1 H2| | | |]; subst.
      apply IH1 in H1. apply (MSeq _ _ (c :: s1) s2 H1 H2). }
    assert (Hinv : Matches (Seq r1 r2) (c :: s) ->
                   Matches (Seq (deriv c r1) r2) s
                   \/ (Matches r1 [] /\ Matches r2 (c :: s))).
    { inversion 1 as [| |? ? s1 s2 H1 H2 E1 E2| | | |]; subst.
      destruct s1 as [|c1 s1]; simpl in E2.
      - right. subst. auto.
      - injection E2 as -> <-. left. constructor; [apply IH1|]; assumption. }
    destruct (nullable r1) eqn:En; split.
    + inversion 1; subst; [auto|].
      apply (MSeq _ _ [] (c :: s)); [apply nullable_spec; assumption|].
      apply IH2. assumption.
    + intros M. destruct (Hinv M) as [M1|[_ M2]].
      * apply MAltL. assumption.
      * apply MAltR, IH2. assumption.
    + auto.
    + intros M. destruct (Hinv M) as [M1|[M0 _]]; [assumption|].
      apply nullable_spec in M0. congruence.
  - split.
    + inversion 1; subst; [apply MAltL, IH1 | apply MAltR, IH2]; assumption.
    + inversion 1; subst; [apply MAltL, IH1 | apply MAltR, IH2]; assumption.
  - split.
    + inversion 1 as [| |? ? s1 s2 H1 H2| | | |]; subst.
      apply IH in H1. apply (MStarCons _ (c :: s1) s2 H1 H2).
    + intros M. apply star_cons in M as (s1 & s2 & -> & M1 & M2).
      constructor; [apply IH|]; assumption.
Qed.

Theorem matchb_spec (r : regexp) (s : list ascii) :
  matchb r s = true <-> Matches r s.
Proof.
  revert r. induction s as [|c s IH]; intros r; simpl.
  - apply nullable_spec.
  - rewrite IH. apply deriv_spec.
Qed.

Lemma test_spec (r : regexp) (s : string) :
  test r s = true <-> Matches r (list_ascii_of_string s).
Proof. apply matchb_spec. Qed.

(** The languages of the pattern constructors. *)

Lemma eps_spec (w : list ascii) : Matches Eps w <-> w = [].
Proof. split; [inversion 1; reflexivity | intros ->; constructor]. Qed.

Lemma charset_spec (p : ascii -> bool) (w : list ascii) :
  Matches (CharSet p) w <-> exists c, w = [c] /\ p c = true.
Proof.
  split.
  - inversion 1; subst; eauto.
  - intros (c & -> & Hc). constructor. assumption.
Qed.

Lemma seq_spec (r1 r2 : regexp) (w : list ascii) :
  Matches (Seq r1 r2) w
  <-> exists w1 w2, w = (w1 ++ w2)%list /\ Matches r1 w1 /\ Matches r2 w2.
Proof.
  split.
  - inversion 1; subst; eauto.
  - intros (w1 & w2 & -> & M1 & M2). constructor; assumption.
Qed.

Lemma alt_spec (r1 r2 : regexp) (w : list ascii) :
  Matches (Alt r1 r2) w <-> Matches r1 w \/ Matches r2 w.
Proof.
  split.
  - inversion 1; subst; auto.
  - intros [M|M]; [apply MAltL | apply MAltR]; assumption.
Qed.

Lemma opt_spec (r : regexp) (w : list ascii) :
  Matches (Opt r) w <-> Matches r w \/ w = [].
Proof. unfold Opt. rewrite alt_spec, eps_spec. reflexivity. Qed.

Lemma chr_spec (c : ascii) (w : list ascii) : Matches (Chr c) w <-> w = [c].
Proof.
  unfold Chr. rewrite charset_spec. split.
  - intros (c' & -> & Hc). apply Ascii.eqb_eq in Hc. congruence.
  - intros ->. exists c. split; [reflexivity | apply Ascii.eqb_refl].
Qed.

Lemma range_spec (lo hi : ascii) (w : list ascii) :
  Matches (Range lo hi) w
  <-> exists c, w = [c]
                /\ (nat_of_ascii lo <= nat_of_ascii c <= nat_of_ascii hi)%nat.
Proof.
  unfold Range. rewrite charset_spec. split.
  - intros (c & -> & Hc). exists c. split; [reflexivity|].
    apply andb_true_iff in Hc as [Hlo Hhi].
    apply Nat.leb_le in Hlo, Hhi. lia.
  - intros (c & -> & Hlo & Hhi). exists c. split; [reflexivity|].
    apply andb_true_iff. split; apply Nat.leb_le; assumption.
Qed.

Lemma lit_spec (s : string) (w : list ascii) :
  Matches (Lit s) w <-> w = list_ascii_of_string s.
Proof.
  revert w. induction s as [|c s IH]; intros w; simpl.
  - apply eps_spec.
  - rewrite seq_spec. split.
    + intros (w1 & w2 & -> & M1 & M2).
      apply chr_spec in M1 as ->. apply IH in M2 as ->. reflexivity.
    + intros ->. exists [c], (list_ascii_of_string s).
      split; [reflexivity|]. split; [apply chr_spec | apply IH]; reflexivity.
Qed.

End RegExpFacts.

(** ** What the per-field schemas accept *)

Section SchemaFacts.
Context `{Runtime}.

Lemma is_integer_spec (q : Q) (z : Z) :
  (q == inject_Z z)%Q <-> is_integer q = true /\ truncate q = z.
Proof.
  destruct q as [n d]. unfold is_integer, truncate, Qeq, inject_Z. simpl.
  rewrite Z.mul_1_r, Z.eqb_eq. split.
  - intros ->. split.
    + apply Z.mod_mul. discriminate.
    + apply Z.div_mul. discriminate.
  - intros [Hm <-]. rewrite Z.mul_comm.
    apply Z.div_exact in Hm; [exact Hm | discriminate].
Qed.

Lemma inject_Z_truncate (z : Z) : truncate (inject_Z z) = z.
Proof. unfold truncate, inject_Z. simpl. apply Z.div_1_r. Qed.

Lemma is_integer_inject_Z (z : Z) : is_integer (inject_Z z) = true.
Proof. unfold is_integer, inject_Z. simpl. rewrite Z.mod_1_r. reflexivity. Qed.

Lemma isSafeInteger_spec (q : Q) :
  Number_isSafeInteger (Finite q) = true
  <-> exists z, (q == inject_Z z)%Q /\ safe_integer z.
Proof.
  unfold Number_isSafeInteger, safe_integer.
  rewrite andb_true_iff, Z.leb_le. split.
  - intros [Hi Hs]. exists (truncate q). split; [|exact Hs].
    apply is_integer_spec. auto.
  - intros (z & Hz & Hs). apply is_integer_spec in Hz as [Hi <-]. auto.
Qed.

Lemma accepts_required (s : Joi.schema) (v : value) :
  Joi.accepts (Joi.required s) v = true -> Joi.accepts s v = true.
Proof. destruct v; simpl; congruence. Qed.

Lemma companyId_accepts (v : value) :
  Joi.accepts (Joi.required simfinParameters.companyId) v = true
  <-> companyId_constraint v.
Proof.
  unfold companyId_constraint, integer_value.
  assert (Hn : forall n, Joi.number_ok [Joi.Integer] n = true
               <-> exists z, (exists q, Some n = Some (Finite q)
                                        /\ (q == inject_Z z)%Q)
                             /\ safe_integer z).
  { intros [q| |b]; simpl.
    - rewrite andb_true_r.
      change (is_integer q && (Z.abs (truncate q) <=? 2 ^ 53 - 1))
        with (Number_isSafeInteger (Finite q)).
      rewrite isSafeInteger_spec. split.
      + intros (z & Hz & Hs). exists z. split; [exists q|]; auto.
      + intros (z & (q' & [= <-] & Hz) & Hs). eauto.
    - split; [discriminate | intros (z & (q & [=] & _) & _)].
    - split; [discriminate | intros (z & (q & [=] & _) & _)]. }
  destruct v; simpl; try apply Hn;
    (split; [discriminate | intros (z & (q & [=] & _) & _)]).
Qed.

Lemma fiscalYear_accepts (v : value) :
  Joi.accepts (Joi.required simfinParameters.fiscalYear) v = true
  <-> fiscalYear_constraint v.
Proof.
  unfold fiscalYear_constraint, integer_value.
  assert (Hn : forall n,
             Joi.number_ok [Joi.Integer; Joi.NumMin 1900; Joi.NumMax 2018] n
             = true
             <-> exists z, (exists q, Some n = Some (Finite q)
                                      /\ (q == inject_Z z)%Q)
                           /\ 1900 <= z <= 2018).
  { intros [q| |b].
    - cbn [Joi.number_ok forallb Joi.number_rule_ok].
      rewrite andb_true_r, !andb_true_iff, isSafeInteger_spec,
        !Qle_bool_iff.
      split.
      + intros ((z & Hz & _) & Hlo & Hhi). exists z.
        split; [exists q; auto|].
        rewrite Hz in Hlo, Hhi. rewrite <- !Zle_Qle in *. lia.
      + intros (z & (q' & [= <-] & Hz) & Hlo & Hhi).
        rewrite Hz, <- !Zle_Qle. repeat split; try assumption.
        exists z. split; [assumption|]. unfold safe_integer. lia.
    - split; [discriminate | intros (z & (q & [=] & _) & _)].
    - split; [discriminate | intros (z & (q & [=] & _) & _)]. }
  destruct v; simpl Joi_number;
    try (split; [discriminate | intros (z & (q & [=] & _) & _)]);
    apply Hn.
Qed.
End SchemaFacts.

Section StringSchemaFacts.
Context `{Runtime}.
Import RegExp.

Lemma existsb_eqb_In (s : string) (l : list string) :
  existsb (String.eqb s) l = true <-> In s l.
Proof.
  rewrite existsb_exists. split.
  - intros (x & Hx & Heq). apply String.eqb_eq in Heq. congruence.
  - intros Hin. exists s. split; [assumption | apply String.eqb_refl].
Qed.

Lemma statementType_accepts (v : value) :
  Joi.accepts (Joi.required simfinParameters.statementType) v = true
  <-> statementType_constraint v.
Proof.
  unfold statementType_constraint.
  destruct v as [| | | |s| |];
    try (split; [discriminate | intros (s' & [=] & _)]).
  change (Joi.accepts (Joi.required simfinParameters.statementType) (VString s))
    with (existsb (String.eqb s) statementTypes).
  rewrite existsb_eqb_In. split.
  - intros Hin. exists s. auto.
  - intros (s' & [= <-] & Hin). assumption.
Qed.

Lemma periodType_accepts (v : value) :
  Joi.accepts (Joi.required simfinParameters.periodType) v = true
  <-> periodType_constraint v.
Proof.
  unfold periodType_constraint.
  destruct v as [| | | |s| |];
    try (split; [discriminate | intros (s' & [=] & _)]).
  change (Joi.accepts (Joi.required simfinParameters.periodType) (VString s))
    with (existsb (String.eqb s) periodTypes
          || (negb (String.eqb s "") && (test ttm_pattern s && true)
              || false)).
  rewrite orb_false_r, andb_true_r, orb_true_iff, andb_true_iff,
    existsb_eqb_In, RegExpFacts.test_spec.
  split.
  - intros [Hin|[_ Hm]]; exists s; auto.
  - intros (s' & [= <-] & [Hin|Hm]); [left; assumption | right].
    split; [|assumption].
    destruct s; [|reflexivity].
    apply RegExpFacts.matchb_spec in Hm. discriminate.
Qed.
End StringSchemaFacts.

Section TickerFacts.
Context `{Runtime}.
Import RegExp RegExpFacts.

Lemma alphanumeric_class (w : list ascii) :
  Matches (Alt (Range "a" "z") (Alt (Range "A" "Z") (Range "0" "9"))) w
  <-> exists c, w = [c] /\ alphanumeric_char c.
Proof.
  unfold alphanumeric_char. rewrite !alt_spec, !range_spec.
  change (nat_of_ascii "a") with 97%nat.
  change (nat_of_ascii "z") with 122%nat.
  change (nat_of_ascii "A") with 65%nat.
  change (nat_of_ascii "Z") with 90%nat.
  change (nat_of_ascii "0") with 48%nat.
  change (nat_of_ascii "9") with 57%nat.
  split.
  - intros [(c & -> & Hc)|[(c & -> & Hc)|(c & -> & Hc)]]; exists c; auto.
  - intros (c & -> & [Hc|[Hc|Hc]]); [right; right|right; left|left];
      exists c; auto.
Qed.

(** A starred character class matches the words made of its characters. *)
Lemma star_class (r : regexp) (P : ascii -> Prop) :
  (forall w, Matches r w <-> exists c, w = [c] /\ P c) ->
  forall w, Matches (Star r) w <-> Forall P w.
Proof.
  intros Hr w. split.
  - intros M. remember (Star r) as r' eqn:Er.
    induction M as [| | | | | |r0 s1 s2 M1 _ M2 IH2]; try discriminate.
    + constructor.
    + injection Er as ->. apply Hr in M1 as (c & -> & Hc).
      constructor; auto.
  - induction 1 as [|c w' Hc _ IH].
    + constructor.
    + apply (MStarCons r [c] w'); [apply Hr; eauto | assumption].
Qed.

Lemma plus_class (r : regexp) (P : ascii -> Prop) :
  (forall w, Matches r w <-> exists c, w = [c] /\ P c) ->
  forall w, Matches (Plus r) w <-> w <> [] /\ Forall P w.
Proof.
  intros Hr w. unfold Plus. split.
  - intros M. remember (Seq r (Star r)) as r' eqn:Er.
    destruct M as [| |r1 r2 s1 s2 M1 M2| | | |]; try discriminate.
    injection Er as -> ->.
    apply Hr in M1 as (c & -> & Hc). apply (star_class _ _ Hr) in M2.
    split; [discriminate | constructor; assumption].
  - intros [Hne Hall]. destruct Hall as [|c w' Hc Hrest]; [congruence|].
    apply (MSeq _ _ [c] w').
    + apply Hr. eauto.
    + apply (star_class _ _ Hr). assumption.
Qed.

Lemma alphanum_spec (s : string) :
  test Joi.alphanum_pattern s = true <-> s <> "" /\ alphanumeric s.
Proof.
  rewrite RegExpFacts.test_spec. unfold Joi.alphanum_pattern, alphanumeric.
  rewrite (plus_class _ _ alphanumeric_class).
  destruct s; simpl; split; intros [Hne Hall]; split;
    congruence || assumption || discriminate.
Qed.

Lemma ticker_accepts (s : string) :
  Joi.accepts simfinParameters.ticker (VString s) = true
  <-> ticker_constraint s.
Proof.
  change (Joi.accepts simfinParameters.ticker (VString s))
    with (negb (String.eqb s "")
          && (test Joi.alphanum_pattern s
              && ((2 <=? Z.of_nat (String.length s))
                  && ((Z.of_nat (String.length s) <=? 10) && true)))).
  rewrite andb_true_r, !andb_true_iff, alphanum_spec, !Z.leb_le,
    negb_true_iff, String.eqb_neq.
  unfold ticker_constraint. split.
  - intros (_ & (_ & Ha) & Hlo & Hhi). split; [assumption | lia].
  - intros (Ha & Hlo & Hhi). repeat split; try assumption; try lia.
    all: intros ->; simpl in Hlo; lia.
Qed.
End TickerFacts.

(** ** The languages of the two patterns of src/index.js *)

Section PatternFacts.
Import RegExp RegExpFacts.

Lemma digit_spec (w : list ascii) :
  Matches digit w <-> exists d, w = [d] /\ digit_char d.
Proof. unfold digit. rewrite range_spec. reflexivity. Qed.

Lemma rep12_digit_spec (w : list ascii) :
  Matches (Rep12 digit) w <-> one_or_two_digits w.
Proof.
  unfold Rep12, one_or_two_digits. rewrite seq_spec. split.
  - intros (w1 & w2 & -> & M1 & M2).
    apply digit_spec in M1 as (d & -> & Hd).
    apply opt_spec in M2 as [M2| ->].
    + apply digit_spec in M2 as (d' & -> & Hd').
      split; [simpl; repeat (constructor; [assumption|]); constructor
             | simpl; lia].
    + split; [simpl; repeat (constructor; [assumption|]); constructor
             | simpl; lia].
  - intros [Hall Hlen].
    destruct w as [|d [|d' [|? ?]]]; simpl in Hlen; try lia.
    + inversion Hall; subst. exists [d], []. split; [reflexivity|].
      split; [apply digit_spec; eauto | apply opt_spec; auto].
    + inversion Hall as [|? ? Hd Hrest]; subst.
      inversion Hrest; subst. exists [d], [d']. split; [reflexivity|].
      split; [apply digit_spec; eauto | apply opt_spec; left].
      apply digit_spec; eauto.
Qed.

Lemma indicator_pattern_language (w : list ascii) :
  Matches indicator_pattern w <-> indicator_code_shape w.
Proof.
  unfold indicator_pattern, indicator_code_shape. rewrite seq_spec. split.
  - intros (w1 & w2 & -> & M1 & M2).
    apply range_spec in M1 as (c & -> & Hc).
    apply seq_spec in M2 as (w3 & w4 & -> & M3 & M4).
    apply chr_spec in M3 as ->. apply rep12_digit_spec in M4.
    exists c, w4. split; [reflexivity|]. split; [exact Hc | exact M4].
  - intros (c & digits & -> & Hc & Hd).
    exists [c], ("-"%char :: digits). split; [reflexivity|].
    split; [apply range_spec; exists c; split; [reflexivity | exact Hc]|].
    apply seq_spec. exists ["-"%char], digits. split; [reflexivity|].
    split; [apply chr_spec; reflexivity | apply rep12_digit_spec; exact Hd].
Qed.

Lemma ttm_fraction_spec (w : list ascii) :
  Matches (Alt (Lit "0") (Alt (Lit "25") (Alt (Lit "5")
             (Alt (Lit "50") (Lit "75"))))) w
  <-> exists f, In f ttm_fractions /\ w = list_ascii_of_string f.
Proof.
  rewrite !alt_spec, !lit_spec. unfold ttm_fractions. split.
  - intros [->|[->|[->|[->| ->]]]]; eexists; (split; [|reflexivity]);
      simpl; auto 10.
  - intros (f & Hin & ->). simpl in Hin.
    destruct Hin as [<-|[<-|[<-|[<-|[<-|[]]]]]]; auto 10.
Qed.

Lemma ttm_pattern_language (w : list ascii) :
  Matches ttm_pattern w <-> ttm_shape w.
Proof.
  unfold ttm_pattern, ttm_shape. rewrite seq_spec. split.
  - intros (w1 & tail & -> & M1 & M2). apply lit_spec in M1 as ->.
    exists tail. split; [reflexivity|].
    apply opt_spec in M2 as [M2 | ->]; [right | left; reflexivity].
    apply seq_spec in M2 as (w2 & w3 & -> & M2 & M3).
    apply chr_spec in M2 as ->.
    apply seq_spec in M3 as (digits & fraction & -> & Md & Mf).
    apply rep12_digit_spec in Md.
    exists digits, fraction. split; [reflexivity|]. split; [exact Md|].
    apply opt_spec in Mf as [Mf | ->]; [right | left; reflexivity].
    apply seq_spec in Mf as (w4 & w5 & -> & M4 & M5).
    apply chr_spec in M4 as ->. apply ttm_fraction_spec in M5 as (f & Hf & ->).
    exists f. split; [exact Hf | reflexivity].
  - intros (tail & -> & Htail).
    exists (list_ascii_of_string "TTM"), tail. split; [reflexivity|].
    split; [apply lit_spec; reflexivity|]. apply opt_spec.
    destruct Htail as [-> |(digits & fraction & -> & Hd & Hf)];
      [right; reflexivity | left].
    apply seq_spec. exists ["-"%char], (digits ++ fraction)%list.
    split; [reflexivity|]. split; [apply chr_spec; reflexivity|].
    apply seq_spec. exists digits, fraction. split; [reflexivity|].
    split; [apply rep12_digit_spec; exact Hd|]. apply opt_spec.
    destruct Hf as [-> |(f & Hf & ->)]; [right; reflexivity | left].
    apply seq_spec. exists ["."%char], (list_ascii_of_string f).
    split; [reflexivity|]. split; [apply chr_spec; reflexivity|].
    apply ttm_fraction_spec. exists f. split; [exact Hf | reflexivity].
Qed.

Example ttm_pattern_accepts :
  map (test ttm_pattern)
    ["TTM"; "TTM-1"; "TTM-12"; "TTM-1.5"; "TTM-1.50"; "TTM-12.75"; "TTM-3.0"]
  = [true; true; true; true; true; true; true].
Proof. reflexivity. Qed.

Example ttm_pattern_refuses :
  map (test ttm_pattern)
    ["ttm"; "TTM-"; "TTM-123"; "TTM-1."; "TTM-1.3"; "TTM-1.755"; "TTM1"; ""]
  = [false; false; false; false; false; false; false; false].
Proof. reflexivity. Qed.

Example indicator_pattern_examples :
  map (test indicator_pattern) ["1-1"; "4-31"; "0-3"; "5-1"; "1-123"; "1-"; "11"]
  = [true; true; true; false; false; false; false].
Proof. reflexivity. Qed.
End PatternFacts.

(** ** The composite schemas and the methods built on them *)

Section MethodFacts.
Context `{Runtime}.
Variable this : SimFin.

Lemma append_assoc (a b c : string) : (a ++ b) ++ c = a ++ b ++ c.
Proof.
  induction a as [|x a IH]; [reflexivity|].
  change (String x ((a ++ b) ++ c) = String x (a ++ b ++ c)).
  f_equal. exact IH.
Qed.

Lemma statementRequestSchema_accepts (companyId statementType periodType fiscalYear : value) :
  Joi.accepts statementRequestSchema
    (VObject {[ "companyId" := companyId;
                "statementType" := statementType;
                "periodType" := periodType;
                "fiscalYear" := fiscalYear ]})
  = Joi.accepts (Joi.required simfinParameters.companyId) companyId
    && Joi.accepts (Joi.required simfinParameters.statementType) statementType
    && Joi.accepts (Joi.required simfinParameters.periodType) periodType
    && Joi.accepts (Joi.required simfinParameters.fiscalYear) fiscalYear.
Proof.
  transitivity
    (Joi.accepts (Joi.required simfinParameters.companyId) companyId
     && (Joi.accepts (Joi.required simfinParameters.statementType) statementType
         && (Joi.accepts (Joi.required simfinParameters.periodType) periodType
             && (Joi.accepts (Joi.required simfinParameters.fiscalYear) fiscalYear
                 && true))) && true).
  - reflexivity.
  - rewrite !andb_true_r, !andb_assoc. reflexivity.
Qed.

Lemma ttmFinancialRatiosRequestSchema_accepts (companyId indicators : value) :
  Joi.accepts ttmFinancialRatiosRequestSchema
    (VObject {[ "companyId" := companyId; "indicators" := indicators ]})
  = Joi.accepts (Joi.required simfinParameters.companyId) companyId
    && Joi.accepts simfinParameters.indicators indicators.
Proof.
  transitivity
    (Joi.accepts (Joi.required simfinParameters.companyId) companyId
     && (Joi.accepts simfinParameters.indicators indicators && true) && true).
  - reflexivity.
  - rewrite !andb_true_r. reflexivity.
Qed.

Lemma ToBoolean_default (v : value) :
  ToBoolean (default_param (VBool false) v) = ToBoolean v.
Proof. destruct v; reflexivity. Qed.

(** [getStatementData] in one equation. *)
Lemma getStatementData_unfold
    (companyId statementType periodType fiscalYear standardised : value) :
  getStatementData this companyId statementType periodType fiscalYear
    standardised
  = if Joi.accepts (Joi.required simfinParameters.companyId) companyId
       && Joi.accepts (Joi.required simfinParameters.statementType) statementType
       && Joi.accepts (Joi.required simfinParameters.periodType) periodType
       && Joi.accepts (Joi.required simfinParameters.fiscalYear) fiscalYear
    then makeRequest this
           ("companies/id/" ++ ToString companyId ++ "/statements/"
            ++ (if ToBoolean standardised then "standardised" else "original"))
           "GET"
           (Some {[ "stype" := statementType;
                    "ptype" := periodType;
                    "fyear" := fiscalYear ]})
    else reject ValidationError.
Proof.
  unfold getStatementData, Joi.validate.
  rewrite statementRequestSchema_accepts, ToBoolean_default.
  destruct (_ && _); [|reflexivity].
  destruct (ToBoolean standardised); rewrite !append_assoc; reflexivity.
Qed.

Lemma getStatementData_valid
    (companyId statementType periodType fiscalYear standardised : value) :
  companyId_constraint companyId ->
  statementType_constraint statementType ->
  periodType_constraint periodType ->
  fiscalYear_constraint fiscalYear ->
  getStatementData this companyId statementType periodType fiscalYear
    standardised
  = makeRequest this
      ("companies/id/" ++ ToString companyId ++ "/statements/"
       ++ (if ToBoolean standardised then "standardised" else "original"))
      "GET"
      (Some {[ "stype" := statementType;
               "ptype" := periodType;
               "fyear" := fiscalYear ]}).
Proof.
  intros Hc Hs Hp Hf. rewrite getStatementData_unfold.
  apply companyId_accepts in Hc. apply statementType_accepts in Hs.
  apply periodType_accepts in Hp. apply fiscalYear_accepts in Hf.
  rewrite Hc, Hs, Hp, Hf. reflexivity.
Qed.

Lemma getStatementData_invalid
    (companyId statementType periodType fiscalYear standardised : value) :
  ~ companyId_constraint companyId
  \/ ~ statementType_constraint statementType
  \/ ~ periodType_constraint periodType
  \/ ~ fiscalYear_constraint fiscalYear ->
  getStatementData this companyId statementType periodType fiscalYear
    standardised
  = reject ValidationError.
Proof.
  intros Hbad. rewrite getStatementData_unfold.
  rewrite <- companyId_accepts, <- statementType_accepts,
    <- periodType_accepts, <- fiscalYear_accepts in Hbad.
  destruct (Joi.accepts (Joi.required simfinParameters.companyId) companyId),
    (Joi.accepts (Joi.required simfinParameters.statementType) statementType),
    (Joi.accepts (Joi.required simfinParameters.periodType) periodType),
    (Joi.accepts (Joi.required simfinParameters.fiscalYear) fiscalYear);
    try reflexivity.
  exfalso. destruct Hbad as [B|[B|[B|B]]]; apply B; reflexivity.
Qed.
End MethodFacts.

(** ** The request primitive *)

Section MakeRequest.
Variable this : SimFin.

Lemma makeRequest_calls (route method : string)
    (params : option (gmap string value)) :
  calls (makeRequest this route method params)
  = [ {| method := method;
         uri := baseURL this ++ route;
         qs := spread {[ "api-key" := token this ]} params;
         json := true |} ].
Proof. reflexivity. Qed.

(** C2: whatever the route and the query-parameter map, [makeRequest]
    hands exactly one request to the collaborator, and its query maps
    ['api-key'] to the configured token, unless the caller's map has the
    key ['api-key'] itself, whose value then wins; an omitted map leaves
    the token alone. *)
Theorem makeRequest_api_key (route method : string)
    (params : option (gmap string value)) :
  exists o,
    calls (makeRequest this route method params) = [o]
    /\ uri o = baseURL this ++ route
    /\ qs o !! "api-key"
       = match params with
         | Some props =>
             match props !! "api-key" with
             | Some supplied => Some supplied
             | None => Some (token this)
             end
         | None => Some (token this)
         end.
Proof.
  eexists. split; [apply makeRequest_calls|]. split; [reflexivity|].
  simpl. destruct params as [props|]; simpl.
  - rewrite lookup_union. destruct (props !! "api-key") as [supplied|].
    + reflexivity.
    + rewrite lookup_singleton_eq. reflexivity.
  - apply lookup_singleton_eq.
Qed.

(** The caller's own parameters all reach the query. *)
Lemma makeRequest_keeps_params (route method : string)
    (props : gmap string value) (k : string) (v : value) :
  props !! k = Some v ->
  forall o, In o (calls (makeRequest this route method (Some props))) ->
            qs o !! k = Some v.
Proof.
  intros Hk o [<-|[]]. simpl. apply lookup_union_Some_l. exact Hk.
Qed.
End MakeRequest.

(** ** Statement data and company lookup *)

Section StatementClaims.
Context `{Runtime}.
Variable this : SimFin.

Lemma VInt_integer_value (z : Z) : integer_value (VInt z) z.
Proof. exists (inject_Z z). split; reflexivity. Qed.

Lemma pl_statementType : statementType_constraint (VString "pl").
Proof. exists "pl". split; [reflexivity | simpl; auto]. Qed.


Lemma fiscalYear_2017 : fiscalYear_constraint (VInt 2017).
Proof. exists 2017. split; [apply VInt_integer_value | lia]. Qed.

Lemma reject_unsent : rejected_unsent (reject ValidationError).
Proof. split; reflexivity. Qed.


(** C4: whatever the other arguments, [getStatementData] rejects with a
    validation error and issues no request when the fiscal year is not an
    integer of [1900, 2018], and likewise when the statement type is not
    one of pl, bs, cf. *)
Theorem getStatementData_rejects_fiscalYear_statementType
    (companyId statementType periodType fiscalYear standardised : value) :
  ~ fiscalYear_constraint fiscalYear
  \/ ~ statementType_constraint statementType ->
  rejected_unsent
    (getStatementData this companyId statementType periodType fiscalYear
       standardised).
Proof.
  intros Hbad. rewrite getStatementData_invalid; [apply reject_unsent|].
  tauto.
Qed.

(** C6: with the other arguments valid, [getStatementData] sends its
    request exactly when the period type is a string of the fixed set or
    one matching the TTM pattern; any other value, of any type, is
    rejected with a validation error before any request, whatever the
    other arguments. *)
Theorem getStatementData_periodType
    (companyId statementType periodType fiscalYear standardised : value) :
  (companyId_constraint companyId ->
   statementType_constraint statementType ->
   fiscalYear_constraint fiscalYear ->
   (periodType_constraint periodType
    <-> exists o,
          calls (getStatementData this companyId statementType periodType
                   fiscalYear standardised) = [o]))
  /\ (~ periodType_constraint periodType ->
      rejected_unsent
        (getStatementData this companyId statementType periodType
           fiscalYear standardised)).
Proof.
  assert (Hrej : ~ periodType_constraint periodType ->
                 getStatementData this companyId statementType periodType
                   fiscalYear standardised = reject ValidationError).
  { intros Hp. apply getStatementData_invalid. tauto. }
  split; [intros Hc Hs Hf; split|].
  - intros Hp. rewrite getStatementData_valid by assumption.
    eexists. apply makeRequest_calls.
  - intros [o Ho]. apply periodType_accepts.
    destruct (Joi.accepts _ periodType) eqn:Ep; [reflexivity|].
    rewrite Hrej in Ho; [discriminate|].
    rewrite <- periodType_accepts. congruence.
  - intros Hp. rewrite Hrej by assumption. apply reject_unsent.
Qed.


End StatementClaims.

(** ** TTM financial ratios *)

Section RatiosClaims.
Context `{Runtime}.
Variable this : SimFin.

Lemma safe_companyId (z : Z) : safe_integer z -> companyId_constraint (VInt z).
Proof. intros Hz. exists z. split; [apply VInt_integer_value | exact Hz]. Qed.

(** A number that is a safe integer is rendered by its decimal digits. *)
Lemma ToString_integer (q : Q) (z : Z) :
  (q == inject_Z z)%Q -> safe_integer z ->
  ToString (VNumber (Finite q)) = decimal z.
Proof.
  intros Hq Hz.
  assert (Hsafe : Number_isSafeInteger (Finite q) = true)
    by (apply isSafeInteger_spec; exists z; auto).
  apply is_integer_spec in Hq as [_ Ht].
  cbn [ToString Number_toString]. rewrite Hsafe, Ht. reflexivity.
Qed.

Lemma ToString_VInt (z : Z) : safe_integer z -> ToString (VInt z) = decimal z.
Proof. apply ToString_integer. reflexivity. Qed.

Lemma indicators_accepts (codes : list string) :
  Joi.accepts simfinParameters.indicators (VArray (map VString codes)) = true
  <-> Forall indicator_code codes.
Proof.
  induction codes as [|s codes IH].
  - split; [constructor | reflexivity].
  - change (Joi.accepts simfinParameters.indicators
              (VArray (map VString (s :: codes))))
      with (((negb (String.eqb s "")
              && (RegExp.test indicator_pattern s && true)) || false)
            && Joi.accepts simfinParameters.indicators
                 (VArray (map VString codes))).
    rewrite orb_false_r, andb_true_r, !andb_true_iff, IH,
      RegExpFacts.test_spec.
    split.
    + intros [[_ Hs] Hrest]. constructor; assumption.
    + inversion 1 as [|? ? Hs Hrest]; subst. repeat split; try assumption.
      destruct s; [|reflexivity].
      apply RegExpFacts.matchb_spec in Hs. discriminate.
Qed.

Lemma Array_join_strings (codes : list string) (sep : string) :
  Array_join (map VString codes) sep = join sep codes.
Proof.
  unfold Array_join. f_equal. rewrite map_map. apply map_id.
Qed.

Lemma getTTMFinancialRatios_array (companyId : value) (codes : list string) :
  companyId_constraint companyId ->
  Forall indicator_code codes ->
  getTTMFinancialRatios this companyId (VArray (map VString codes))
  = makeRequest this ("companies/id/" ++ ToString companyId ++ "/ratios")
      "GET" (Some {[ "indicators" := VString (join "," codes) ]}).
Proof.
  intros Hc Hcodes. unfold getTTMFinancialRatios, Joi.validate.
  rewrite ttmFinancialRatiosRequestSchema_accepts.
  apply companyId_accepts in Hc. apply indicators_accepts in Hcodes.
  rewrite Hc, Hcodes. cbn [andb ToBoolean call_join].
  rewrite Array_join_strings. reflexivity.
Qed.

(** Without the argument the query has no ['indicators'] key at all. *)
Lemma getTTMFinancialRatios_omitted (companyId : value) :
  companyId_constraint companyId ->
  getTTMFinancialRatios this companyId VUndefined
  = makeRequest this ("companies/id/" ++ ToString companyId ++ "/ratios")
      "GET" None.
Proof.
  intros Hc. unfold getTTMFinancialRatios, Joi.validate.
  rewrite ttmFinancialRatiosRequestSchema_accepts.
  apply companyId_accepts in Hc. rewrite Hc. reflexivity.
Qed.

(** C7, as the code has it: for every company id the [companyId] schema
    accepts, which for a number means a safe integer (at most 2^53 - 1 in
    magnitude), and every array of indicator codes, empty or not,
    [getTTMFinancialRatios] issues a GET to
    [companies/id/{companyId}/ratios] whose query maps ['indicators'] to
    the codes joined by commas; for [['1-1', '2-1']] the parameters are
    [{indicators: '1-1,2-1'}]. *)
Theorem getTTMFinancialRatios_joins_indicators
    (companyId : value) (codes : list string) :
  companyId_constraint companyId ->
  Forall indicator_code codes ->
  (exists o,
     calls (getTTMFinancialRatios this companyId
              (VArray (map VString codes))) = [o]
     /\ method o = "GET"
     /\ uri o = baseURL this ++ "companies/id/" ++ ToString companyId ++ "/ratios"
     /\ qs o !! "indicators" = Some (VString (join "," codes)))
  /\ getTTMFinancialRatios this companyId
       (VArray [VString "1-1"; VString "2-1"])
     = makeRequest this ("companies/id/" ++ ToString companyId ++ "/ratios")
         "GET" (Some {[ "indicators" := VString "1-1,2-1" ]}).
Proof.
  intros Hc Hcodes. split.
  - rewrite getTTMFinancialRatios_array by assumption.
    eexists. split; [apply makeRequest_calls|].
    repeat split.
  - apply (getTTMFinancialRatios_array companyId ["1-1"; "2-1"] Hc).
    repeat constructor; apply RegExpFacts.matchb_spec; reflexivity.
Qed.

(** C9, as the code has it: for every company id the [companyId] schema
    accepts, which for a number means a safe integer (at most 2^53 - 1 in
    magnitude), the empty array passes validation and, being truthy, is
    joined like any other: the GET to
    [companies/id/{companyId}/ratios] carries ['indicators'] mapped to the
    empty string. *)
Theorem getTTMFinancialRatios_empty_indicators (companyId : value) :
  companyId_constraint companyId ->
  Joi.validate
    (VObject {[ "companyId" := companyId; "indicators" := VArray [] ]})
    ttmFinancialRatiosRequestSchema = None
  /\ exists o,
       calls (getTTMFinancialRatios this companyId (VArray [])) = [o]
       /\ method o = "GET"
       /\ uri o = baseURL this ++ "companies/id/" ++ ToString companyId ++ "/ratios"
       /\ qs o !! "indicators" = Some (VString "").
Proof.
  intros Hc. split.
  - unfold Joi.validate. rewrite ttmFinancialRatiosRequestSchema_accepts.
    rewrite (proj2 (companyId_accepts _) Hc). reflexivity.
  - change (VArray []) with (VArray (map VString [])).
    rewrite (getTTMFinancialRatios_array companyId [] Hc) by constructor.
    eexists. split; [apply makeRequest_calls|].
    repeat split.
Qed.
End RatiosClaims.

(** ** Validation before every request, and the static catalog *)

Section FacadeClaims.
Context `{Runtime}.
Variable this : SimFin.

(** C1, as the code has it: [getCompanyIdByTicker], [getStatementData]
    and [getTTMFinancialRatios] issue no request with a field value that
    fails the schema declared for that field, and the operations without
    such a field trivially so; [getCompanyDataById] and
    [getAvailableCompanyStatements], which pass [companyId] on without
    validating it, are left out. *)
Theorem validated_requests_carry_valid_fields (op : operation) :
  forwards_unvalidated op = false ->
  fields_valid_when_requested this op.
Proof.
  intros Hop Hsent.
  destruct op as [ticker|name| |companyId|companyId
                  |companyId statementType periodType fiscalYear standardised
                  |companyId indicators| | |];
    try discriminate Hop; try (constructor; fail); simpl in Hsent |- *.
  - revert Hsent. unfold getCompanyIdByTicker, Joi.validate.
    destruct (Joi.accepts simfinParameters.ticker ticker) eqn:Et.
    + intros _. repeat constructor. exact Et.
    + intros Hsent. exfalso. apply Hsent. reflexivity.
  - revert Hsent. rewrite getStatementData_unfold.
    destruct (Joi.accepts _ companyId) eqn:Ec;
      [|intros Hsent; exfalso; apply Hsent; reflexivity].
    destruct (Joi.accepts _ statementType) eqn:Es;
      [|intros Hsent; exfalso; apply Hsent; reflexivity].
    destruct (Joi.accepts _ periodType) eqn:Ep;
      [|intros Hsent; exfalso; apply Hsent; reflexivity].
    destruct (Joi.accepts _ fiscalYear) eqn:Ef;
      [|intros Hsent; exfalso; apply Hsent; reflexivity].
    intros _. repeat constructor; apply accepts_required; assumption.
  - revert Hsent. unfold getTTMFinancialRatios, Joi.validate.
    rewrite ttmFinancialRatiosRequestSchema_accepts.
    destruct (Joi.accepts _ companyId) eqn:Ec;
      [|intros Hsent; exfalso; apply Hsent; reflexivity].
    destruct (Joi.accepts _ indicators) eqn:Ei;
      [|intros Hsent; exfalso; apply Hsent; reflexivity].
    intros _. repeat constructor; [apply accepts_required|]; assumption.
Qed.

Lemma indicatorsMap_keys :
  Forall indicator_code (map fst indicatorsMap).
Proof.
  apply List.Forall_forall. intros k Hk.
  assert (Hall : forallb (RegExp.test indicator_pattern)
                   (map fst indicatorsMap) = true) by (vm_compute; reflexivity).
  rewrite forallb_forall in Hall.
  apply RegExpFacts.test_spec, Hall, Hk.
Qed.

(** C8, as the code has it: [getFinancialIndicators] performs no network
    call and returns the constant [indicatorsMap], which has exactly 75
    entries under distinct keys, every key of the form
    [{category}-{index}] with the category among 0 to 4. *)
Theorem getFinancialIndicators_catalog :
  calls getFinancialIndicators = []
  /\ result getFinancialIndicators = indicatorsMap
  /\ length indicatorsMap = 75%nat
  /\ NoDup (map fst indicatorsMap)
  /\ Forall indicator_code (map fst indicatorsMap).
Proof.
  repeat split; [|apply indicatorsMap_keys].
  apply (bool_decide_unpack _). vm_compute. exact I.
Qed.
End FacadeClaims.

(** ** The claims on concrete calls *)

Lemma companyId_111052 : @companyId_constraint plain_runtime (VInt 111052).
Proof.
  exists 111052. split.
  - exists (inject_Z 111052). split; reflexivity.
  - unfold safe_integer. simpl. lia.
Defined.

Lemma fiscalYear_2019_plain : ~ @fiscalYear_constraint plain_runtime (VInt 2019).
Proof.
  intros (z & (q & Hq & Hz) & Hrange). injection Hq as <-.
  unfold Qeq in Hz. simpl in Hz. lia.
Defined.

Lemma statementType_xx : ~ statementType_constraint (VString "xx").
Proof.
  intros (s & Hs & Hin). injection Hs as <-.
  simpl in Hin. intuition discriminate.
Defined.



Lemma getStatementData_rejects_fiscalYear_statementType_witness :
  (~ @fiscalYear_constraint plain_runtime (VInt 2019)
   /\ rejected_unsent
        (@getStatementData plain_runtime client (VInt 111052) (VString "pl")
           (VString "FY") (VInt 2019) (VBool true)))
  /\ (~ statementType_constraint (VString "xx")
      /\ rejected_unsent
           (@getStatementData plain_runtime client (VInt 111052) (VString "xx")
              (VString "FY") (VInt 2017) (VBool true))).
Proof.
  split; split.
  - exact fiscalYear_2019_plain.
  - apply (@getStatementData_rejects_fiscalYear_statementType plain_runtime).
    left. exact fiscalYear_2019_plain.
  - exact statementType_xx.
  - apply (@getStatementData_rejects_fiscalYear_statementType plain_runtime).
    right. exact statementType_xx.
Defined.

Lemma periodType_Q5 : ~ periodType_constraint (VString "Q5").
Proof.
  intros (s & Hs & Hin). injection Hs as <-. destruct Hin as [Hin|Hm].
  - simpl in Hin. intuition discriminate.
  - apply RegExpFacts.matchb_spec in Hm. discriminate.
Defined.

Lemma getStatementData_periodType_witness :
  ((@companyId_constraint plain_runtime (VInt 111052)
    /\ statementType_constraint (VString "pl")
    /\ @fiscalYear_constraint plain_runtime (VInt 2017))
   /\ (periodType_constraint (VString "TTM-1.25")
       <-> exists o,
             calls (@getStatementData plain_runtime client (VInt 111052)
                      (VString "pl") (VString "TTM-1.25") (VInt 2017)
                      (VBool false)) = [o]))
  /\ (~ periodType_constraint (VString "Q5")
      /\ rejected_unsent
           (@getStatementData plain_runtime client (VInt 111052) (VString "pl")
              (VString "Q5") (VInt 2017) (VBool false))).
Proof.
  split; split.
  - repeat split;
      [exact companyId_111052 | exact pl_statementType
       | exact (@fiscalYear_2017 plain_runtime)].
  - exact (proj1 (@getStatementData_periodType plain_runtime client
                    (VInt 111052) (VString "pl") (VString "TTM-1.25")
                    (VInt 2017) (VBool false))
             companyId_111052 pl_statementType
             (@fiscalYear_2017 plain_runtime)).
  - exact periodType_Q5.
  - exact (proj2 (@getStatementData_periodType plain_runtime client
                    (VInt 111052) (VString "pl") (VString "Q5")
                    (VInt 2017) (VBool false))
             periodType_Q5).
Defined.





Lemma codes_revenues_cash : Forall indicator_code ["1-1"; "2-1"].
Proof.
  repeat constructor; apply RegExpFacts.matchb_spec; reflexivity.
Defined.

Lemma getTTMFinancialRatios_joins_indicators_witness :
  (@companyId_constraint plain_runtime (VInt 111052)
   /\ Forall indicator_code ["1-1"; "2-1"])
  /\ (exists o,
        calls (@getTTMFinancialRatios plain_runtime client (VInt 111052)
                 (VArray [VString "1-1"; VString "2-1"])) = [o]
        /\ method o = "GET"
        /\ uri o = "https://simfin.com/api/v1/companies/id/111052/ratios"
        /\ qs o !! "indicators" = Some (VString "1-1,2-1")).
Proof.
  split; [split; [exact companyId_111052 | exact codes_revenues_cash]|].
  exact (proj1 (@getTTMFinancialRatios_joins_indicators plain_runtime client
                  (VInt 111052) ["1-1"; "2-1"] companyId_111052
                  codes_revenues_cash)).
Defined.

Lemma getTTMFinancialRatios_empty_indicators_witness :
  @companyId_constraint plain_runtime (VInt 111052)
  /\ exists o,
       calls (@getTTMFinancialRatios plain_runtime client (VInt 111052)
                (VArray [])) = [o]
       /\ method o = "GET"
       /\ uri o = "https://simfin.com/api/v1/companies/id/111052/ratios"
       /\ qs o !! "indicators" = Some (VString "").
Proof.
  split; [exact companyId_111052|].
  exact (proj2 (@getTTMFinancialRatios_empty_indicators plain_runtime client
                  (VInt 111052) companyId_111052)).
Defined.

Lemma validated_requests_carry_valid_fields_witness :
  forwards_unvalidated (GetCompanyIdByTicker (VString "AAPL")) = false
  /\ @fields_valid_when_requested plain_runtime client
       (GetCompanyIdByTicker (VString "AAPL")).
Proof.
  split; [reflexivity|].
  apply (@validated_requests_carry_valid_fields plain_runtime client).
  reflexivity.
Defined.

(** C1 as stated fails: [getCompanyDataById('abc')] sends its request,
    with the route [companies/id/abc], although ['abc'] fails the schema
    declared for [companyId]. *)
Lemma getCompanyDataById_forwards_invalid_companyId :
  map uri (@requests plain_runtime client (GetCompanyDataById (VString "abc")))
  = ["https://simfin.com/api/v1/companies/id/abc"]
  /\ @Joi.validate plain_runtime (VString "abc") simfinParameters.companyId
     = Some ValidationError
  /\ ~ @fields_valid_when_requested plain_runtime client
         (GetCompanyDataById (VString "abc")).
Proof.
  split; [reflexivity|]. split; [reflexivity|].
  intros Hvalid.
  assert (Hsent : @requests plain_runtime client
                    (GetCompanyDataById (VString "abc")) <> [])
    by discriminate.
  apply Hvalid in Hsent. inversion Hsent as [|? ? Hfield _]; subst.
  vm_compute in Hfield. discriminate.
Qed.

(** C8 as stated fails: the catalog does not have 80 entries. *)
Lemma getFinancialIndicators_not_80_entries :
  length (result getFinancialIndicators) <> 80%nat.
Proof. vm_compute. discriminate. Qed.

(** * Further properties of the facade *)

(** ** Company lookup by ticker, on any value *)

Section TickerOnAnyValue.
Context `{Runtime}.
Variable this : SimFin.

(** The two outcomes of a string ticker. *)
Lemma ticker_string_cases (s : string) :
  (ticker_constraint s
   /\ getCompanyIdByTicker this (VString s)
      = makeRequest this ("info/find-id/ticker/" ++ s) "GET" None)
  \/ (~ ticker_constraint s
      /\ getCompanyIdByTicker this (VString s) = reject ValidationError).
Proof.
  unfold getCompanyIdByTicker, Joi.validate.
  rewrite <- ticker_accepts.
  destruct (Joi.accepts simfinParameters.ticker (VString s));
    [left | right]; split; (reflexivity || discriminate).
Qed.

(** X1: [getCompanyIdByTicker] sends a request exactly when the ticker is
    omitted ([undefined], which the optional schema lets through) or is a
    string meeting the ticker constraint; an omitted ticker is looked up
    under the route [info/find-id/ticker/undefined], and every other
    value ([null], booleans, numbers, arrays, objects, other strings) is
    rejected with a validation error before any request. *)
Theorem getCompanyIdByTicker_any_value (ticker : value) :
  ((exists o, calls (getCompanyIdByTicker this ticker) = [o])
   <-> ticker = VUndefined
       \/ exists s, ticker = VString s /\ ticker_constraint s)
  /\ getCompanyIdByTicker this VUndefined
     = makeRequest this "info/find-id/ticker/undefined" "GET" None
  /\ (rejected_unsent (getCompanyIdByTicker this ticker)
      \/ exists o, calls (getCompanyIdByTicker this ticker) = [o]).
Proof.
  split; [|split; [reflexivity|]].
  - destruct ticker as [| | | |s| |];
      try (split; [intros [o Ho]; discriminate Ho
                  | intros [[=]|(s' & [=] & _)]]).
    + split; [auto | intros _; eexists; reflexivity].
    + destruct (ticker_string_cases s)
        as [[Hc Hr]|[Hc Hr]]; rewrite Hr.
      * split; [intros _; right; eauto | intros _; eexists; reflexivity].
      * split; [intros [o Ho]; discriminate Ho|].
        intros [[=]|(s' & [= <-] & Hs)]. contradiction.
  - destruct ticker as [| | | |s| |];
      try (left; split; reflexivity).
    + right. eexists. reflexivity.
    + destruct (ticker_string_cases s)
        as [[Hc Hr]|[Hc Hr]]; rewrite Hr.
      * right. eexists. reflexivity.
      * left. split; reflexivity.
Qed.
End TickerOnAnyValue.

(** ** Statement requests, in full *)

Section StatementInFull.
Context `{Runtime}.
Variable this : SimFin.

(** X2: [getStatementData] sends its single request exactly when all four
    validated fields meet their constraints, and otherwise rejects with a
    validation error before any request; the [standardised] argument has
    no say in it. *)
Theorem getStatementData_sends_iff_valid
    (companyId statementType periodType fiscalYear standardised : value) :
  ((exists o,
      calls (getStatementData this companyId statementType periodType
               fiscalYear standardised) = [o])
   <-> statement_request_valid companyId statementType periodType fiscalYear)
  /\ (~ statement_request_valid companyId statementType periodType fiscalYear
      -> rejected_unsent
           (getStatementData this companyId statementType periodType
              fiscalYear standardised)).
Proof.
  unfold statement_request_valid.
  assert (Hrej : ~ (companyId_constraint companyId
                    /\ statementType_constraint statementType
                    /\ periodType_constraint periodType
                    /\ fiscalYear_constraint fiscalYear) ->
                 getStatementData this companyId statementType periodType
                   fiscalYear standardised = reject ValidationError).
  { intros Hbad. rewrite getStatementData_unfold.
    rewrite <- companyId_accepts, <- statementType_accepts,
      <- periodType_accepts, <- fiscalYear_accepts in Hbad.
    destruct (Joi.accepts _ companyId), (Joi.accepts _ statementType),
      (Joi.accepts _ periodType), (Joi.accepts _ fiscalYear);
      try reflexivity.
    exfalso. apply Hbad. auto. }
  split; [split|].
  - intros [o Ho]. rewrite getStatementData_unfold in Ho.
    rewrite <- companyId_accepts, <- statementType_accepts,
      <- periodType_accepts, <- fiscalYear_accepts.
    destruct (Joi.accepts _ companyId), (Joi.accepts _ statementType),
      (Joi.accepts _ periodType), (Joi.accepts _ fiscalYear);
      try discriminate Ho.
    auto.
  - intros (Hc & Hs & Hp & Hf).
    rewrite getStatementData_valid by assumption.
    eexists. apply makeRequest_calls.
  - intros Hbad. rewrite Hrej by assumption. apply reject_unsent.
Qed.

Lemma undefined_no_number (z : Z) : ~ integer_value VUndefined z.
Proof. intros (q & [=] & _). Qed.

Lemma null_no_number (z : Z) : ~ integer_value VNull z.
Proof. intros (q & [=] & _). Qed.

(** X3: a statement request with any of its four fields missing
    ([undefined]) or [null] is rejected with a validation error and sends
    nothing, whatever the other arguments. *)
Theorem getStatementData_missing_field
    (companyId statementType periodType fiscalYear standardised : value) :
  In VUndefined [companyId; statementType; periodType; fiscalYear]
  \/ In VNull [companyId; statementType; periodType; fiscalYear] ->
  rejected_unsent
    (getStatementData this companyId statementType periodType fiscalYear
       standardised).
Proof.
  intros Hmissing.
  rewrite getStatementData_invalid; [apply reject_unsent|].
  simpl in Hmissing.
  destruct Hmissing
    as [[-> |[-> |[-> |[-> |[]]]]]|[-> |[-> |[-> |[-> |[]]]]]].
  - left. intros (z & Hz & _). exact (undefined_no_number z Hz).
  - right; left. intros (s & [=] & _).
  - right; right; left. intros (s & [=] & _).
  - right; right; right. intros (z & Hz & _). exact (undefined_no_number z Hz).
  - left. intros (z & Hz & _). exact (null_no_number z Hz).
  - right; left. intros (s & [=] & _).
  - right; right; left. intros (s & [=] & _).
  - right; right; right. intros (z & Hz & _). exact (null_no_number z Hz).
Qed.

(** X4: the outcome of [getStatementData] depends on [standardised] only
    through its truthiness; in particular leaving the argument out is the
    same as passing [false]. *)
Theorem getStatementData_standardised_by_truthiness
    (companyId statementType periodType fiscalYear : value)
    (standardised standardised' : value) :
  ToBoolean standardised = ToBoolean standardised' ->
  getStatementData this companyId statementType periodType fiscalYear
    standardised
  = getStatementData this companyId statementType periodType fiscalYear
      standardised'.
Proof.
  intros Htruth. rewrite !getStatementData_unfold, Htruth. reflexivity.
Qed.

(** X5: on a valid statement request the query holds exactly four entries:
    the token under ['api-key'] and the caller's own [statementType],
    [periodType] and [fiscalYear] values under [stype], [ptype] and
    [fyear], passed on as given (a year given as a numeric string stays a
    string). *)
Theorem getStatementData_query
    (companyId statementType periodType fiscalYear standardised : value) :
  statement_request_valid companyId statementType periodType fiscalYear ->
  exists o,
    calls (getStatementData this companyId statementType periodType
             fiscalYear standardised) = [o]
    /\ qs o = {[ "api-key" := token this;
                 "stype" := statementType;
                 "ptype" := periodType;
                 "fyear" := fiscalYear ]}
    /\ size (qs o) = 4%nat.
Proof.
  intros (Hc & Hs & Hp & Hf).
  rewrite getStatementData_valid by assumption.
  eexists. split; [apply makeRequest_calls|]. split; reflexivity.
Qed.

(** X6: for an integer fiscal year, with the other fields valid, the
    request goes out exactly for the years 1900 to 2018, both ends
    included. *)
Theorem getStatementData_year_bounds
    (companyId statementType periodType standardised : value) (year : Z) :
  companyId_constraint companyId ->
  statementType_constraint statementType ->
  periodType_constraint periodType ->
  ((exists o,
      calls (getStatementData this companyId statementType periodType
               (VInt year) standardised) = [o])
   <-> 1900 <= year <= 2018).
Proof.
  intros Hc Hs Hp.
  assert (Hyear : fiscalYear_constraint (VInt year) <-> 1900 <= year <= 2018).
  { split.
    - intros (z & (q & [= <-] & Hq) & Hz).
      unfold Qeq in Hq. simpl in Hq. lia.
    - intros Hz. exists year. split; [apply VInt_integer_value | exact Hz]. }
  rewrite <- Hyear. split.
  - intros [o Ho]. rewrite getStatementData_unfold in Ho.
    apply fiscalYear_accepts.
    destruct (Joi.accepts _ (VInt year)); [reflexivity|].
    rewrite !andb_false_r in Ho. discriminate Ho.
  - intros Hf. rewrite getStatementData_valid by assumption.
    eexists. apply makeRequest_calls.
Qed.
End StatementInFull.

(** ** TTM ratios requests, in full *)

Section RatiosInFull.
Context `{Runtime}.
Variable this : SimFin.

Lemma indicators_cons (x : value) (items : list value) :
  Joi.accepts simfinParameters.indicators (VArray (x :: items))
  = match x with
    | VString s =>
        (negb (String.eqb s "")
         && (RegExp.test indicator_pattern s && true)) || false
    | _ => false
    end
    && Joi.accepts simfinParameters.indicators (VArray items).
Proof. destruct x; reflexivity. Qed.

Lemma indicator_item_test (s : string) :
  RegExp.test indicator_pattern s = true <-> indicator_item (VString s).
Proof.
  rewrite RegExpFacts.test_spec, indicator_pattern_language.
  unfold indicator_item. split.
  - intros Hs. exists s. auto.
  - intros (s' & [= <-] & Hs). exact Hs.
Qed.

Lemma indicators_items_accepted (items : list value) :
  Joi.accepts simfinParameters.indicators (VArray items) = true
  <-> Forall indicator_item items.
Proof.
  induction items as [|x items IH].
  - split; [constructor | reflexivity].
  - rewrite indicators_cons, andb_true_iff, IH. split.
    + intros [Hx Hrest]. constructor; [|exact Hrest].
      destruct x as [| | | |s| |]; try discriminate Hx.
      rewrite orb_false_r, andb_true_r, andb_true_iff in Hx.
      apply indicator_item_test, Hx.
    + inversion 1 as [|? ? Hx Hrest]; subst. split; [|exact Hrest].
      destruct Hx as (s & -> & Hs).
      assert (Ht : RegExp.test indicator_pattern s = true)
        by (apply indicator_item_test; exists s; auto).
      rewrite Ht, orb_false_r, andb_true_r.
      destruct s; [discriminate Ht | reflexivity].
Qed.

(** X7: the [indicators] schema accepts an array exactly when every
    element is a string made of a category digit 0 to 4, a dash and one or
    two decimal digits; one element of any other type or shape, [null] and
    [undefined] included, fails the whole array; the empty array and an
    omitted value pass, [null] does not. *)
Theorem indicators_array_accepts (items : list value) :
  (Joi.accepts simfinParameters.indicators (VArray items) = true
   <-> Forall indicator_item items)
  /\ Joi.accepts simfinParameters.indicators (VArray []) = true
  /\ Joi.accepts simfinParameters.indicators VUndefined = true
  /\ Joi.accepts simfinParameters.indicators VNull = false.
Proof.
  split; [apply indicators_items_accepted|].
  repeat split.
Qed.

Lemma indicator_items_codes (items : list value) :
  Forall indicator_item items ->
  exists codes, items = map VString codes /\ Forall indicator_code codes.
Proof.
  induction 1 as [|x items (s & -> & Hs) _ (codes & -> & Hcodes)].
  - exists []. split; [reflexivity | constructor].
  - exists (s :: codes). split; [reflexivity|].
    constructor; [|exact Hcodes].
    apply indicator_pattern_language. exact Hs.
Qed.

(** X8: whatever the arguments, a request sent by
    [getTTMFinancialRatios] has a valid company id, and its query either
    has no ['indicators'] key or maps it to the comma-joined elements of
    an array of valid indicator codes: nothing unvalidated reaches the
    query. *)
Theorem getTTMFinancialRatios_requests_carry_codes
    (companyId indicators : value) (o : options) :
  calls (getTTMFinancialRatios this companyId indicators) = [o] ->
  companyId_constraint companyId
  /\ (qs o !! "indicators" = None
      \/ exists codes,
           indicators = VArray (map VString codes)
           /\ Forall indicator_code codes
           /\ qs o !! "indicators" = Some (VString (join "," codes))).
Proof.
  unfold getTTMFinancialRatios, Joi.validate.
  rewrite ttmFinancialRatiosRequestSchema_accepts.
  destruct (Joi.accepts _ companyId) eqn:Ec; [|discriminate].
  destruct (Joi.accepts _ indicators) eqn:Ei; [|discriminate].
  cbn [andb]. intros Hsent.
  split; [apply companyId_accepts; exact Ec|].
  destruct (ToBoolean indicators) eqn:Et.
  - destruct indicators as [| | | | |items|]; try discriminate Hsent.
    right. apply indicators_items_accepted, indicator_items_codes in Ei
      as (codes & -> & Hcodes).
    exists codes. split; [reflexivity|]. split; [exact Hcodes|].
    cbn [call_join] in Hsent. rewrite Array_join_strings in Hsent.
    injection Hsent as <-. reflexivity.
  - left. injection Hsent as <-. reflexivity.
Qed.

(** X9: [getTTMFinancialRatios] rejects with a validation error, before
    any request, when the company id is invalid, when [indicators] is an
    array with an element that is not an indicator code, and when it is
    [null], a boolean, a number or a plain object. *)
Theorem getTTMFinancialRatios_rejects (companyId indicators : value) :
  ~ companyId_constraint companyId
  \/ (exists items, indicators = VArray items
                    /\ ~ Forall indicator_item items)
  \/ indicators = VNull
  \/ (exists b, indicators = VBool b)
  \/ (exists n, indicators = VNumber n)
  \/ (exists props, indicators = VObject props) ->
  rejected_unsent (getTTMFinancialRatios this companyId indicators).
Proof.
  intros Hbad.
  assert (Hacc : Joi.accepts (Joi.required simfinParameters.companyId) companyId
                 && Joi.accepts simfinParameters.indicators indicators = false).
  { destruct Hbad as [Hc|[(items & -> & Hi)|[-> |[[b ->]|[[n ->]|[props ->]]]]]].
    - rewrite <- companyId_accepts in Hc.
      destruct (Joi.accepts _ companyId); [exfalso; auto | reflexivity].
    - rewrite <- indicators_items_accepted in Hi.
      destruct (Joi.accepts _ (VArray items)); [exfalso; auto|].
      apply andb_false_r.
    - apply andb_false_r.
    - apply andb_false_r.
    - apply andb_false_r.
    - apply andb_false_r. }
  unfold getTTMFinancialRatios, Joi.validate.
  rewrite ttmFinancialRatiosRequestSchema_accepts, Hacc. apply reject_unsent.
Qed.

(** X10: a non-empty string never gets a ratios request out: either the
    schema refuses it, or (a string Joi reads as a JSON array) it passes
    validation and the call of [join] on it throws; both ways the promise
    is rejected and nothing is sent. *)
Theorem getTTMFinancialRatios_string_indicators
    (companyId : value) (s : string) :
  s <> "" ->
  calls (getTTMFinancialRatios this companyId (VString s)) = []
  /\ exists e,
       result (getTTMFinancialRatios this companyId (VString s)) = Rejected e.
Proof.
  intros Hs. unfold getTTMFinancialRatios, Joi.validate.
  destruct (Joi.accepts _ _).
  - assert (Ht : ToBoolean (VString s) = true)
      by (destruct s; [congruence | reflexivity]).
    rewrite Ht. cbn [call_join]. split; [reflexivity | eexists; reflexivity].
  - split; [reflexivity | eexists; reflexivity].
Qed.
End RatiosInFull.

(** ** The request primitive and the facade as a whole *)

Section RequestsInFull.
Context `{Runtime}.
Variable this : SimFin.

(** X11: the query built by [makeRequest] has exactly the caller's keys
    and ['api-key'], and every caller key keeps the caller's value; it is
    the object [{...params, 'api-key': token}] that the test of
    src/tests/simfin.test.js expects exactly when the caller's map has no
    ['api-key'] of its own or has the token under it. *)
Theorem makeRequest_query_exact (route method : string)
    (props : gmap string value) :
  exists o,
    calls (makeRequest this route method (Some props)) = [o]
    /\ dom (qs o) = dom props ∪ {[ "api-key" ]}
    /\ (forall k, k ∈ dom props -> qs o !! k = props !! k)
    /\ (qs o = <[ "api-key" := token this ]> props
        <-> props !! "api-key" = None
            \/ props !! "api-key" = Some (token this)).
Proof.
  eexists. split; [apply makeRequest_calls|]. cbn [qs spread].
  split; [|split].
  - rewrite dom_union_L, dom_singleton_L. reflexivity.
  - intros k Hk. apply elem_of_dom in Hk as [v Hv].
    rewrite Hv. apply lookup_union_Some_l. exact Hv.
  - split.
    + intros Heq.
      assert (Hk : (props ∪ {[ "api-key" := token this ]}) !! "api-key"
                   = Some (token this))
        by (rewrite Heq; apply lookup_insert_eq).
      destruct (props !! "api-key") as [v|] eqn:Ev; [right | left; reflexivity].
      rewrite (lookup_union_Some_l _ _ _ _ Ev) in Hk. exact Hk.
    + intros [Hnone|Hsome].
      * symmetry. apply insert_union_singleton_r. exact Hnone.
      * apply map_eq. intros k.
        destruct (decide (k = "api-key")) as [->|Hne].
        -- rewrite lookup_insert_eq. apply lookup_union_Some_l. exact Hsome.
        -- rewrite lookup_insert_ne by congruence.
           rewrite lookup_union, lookup_singleton_ne by congruence.
           destruct (props !! k); reflexivity.
Qed.

Lemma makeRequest_shape (route : string)
    (params : option (gmap string value)) (o : options) :
  match params with
  | Some props => props !! "api-key" = None
  | None => True
  end ->
  In o (calls (makeRequest this route "GET" params)) ->
  method o = "GET" /\ json o = true
  /\ (exists r, uri o = baseURL this ++ r)
  /\ qs o !! "api-key" = Some (token this).
Proof.
  intros Hkey [<-|[]]. repeat split; [eexists; reflexivity|].
  cbn [qs]. destruct params as [props|]; cbn [spread].
  - rewrite lookup_union, Hkey. reflexivity.
  - reflexivity.
Qed.

(** What passed the [companyId] or the [ticker] schema is a number, a string or
    [undefined]: its conversion to a string never throws. *)
Lemma accepted_values_render (v : value) :
  Joi.accepts (Joi.required simfinParameters.companyId) v = true
  \/ Joi.accepts simfinParameters.ticker v = true ->
  ToString_throws v = false.
Proof.
  destruct v as [| | | | |items|props]; try reflexivity;
    intros [Hacc|Hacc]; discriminate Hacc.
Qed.

Example getCompanyDataById_throwing_object :
  getCompanyDataById this (VObject {[ "toString" := VInt 1 ]})
  = reject TypeError
  /\ getCompanyDataById this (VArray [VObject {[ "toString" := VInt 1 ]}])
     = reject TypeError
  /\ getCompanyDataById this (VObject {[ "id" := VInt 1 ]})
     = makeRequest this "companies/id/[object Object]" "GET" None.
Proof. repeat split. Qed.

Ltac nothing_sent :=
  split; [simpl; lia | split; [intros ? [] | first [exact I | reflexivity]]].

Ltac one_sent :=
  split;
  [ simpl; lia
  | split;
    [ intros ? Hsent; apply makeRequest_shape in Hsent;
      [exact Hsent | first [exact I | reflexivity]]
    | first [exact I | reflexivity] ] ].

(** X12: every operation of the facade issues at most one request, and
    every request issued is a GET with [json: true], a URI that starts
    with the base URL, and the configured token under ['api-key']: no
    method passes a parameter that would override it.  The three constant
    getters issue none and [getAllCompanies] exactly one.  The three
    methods that put an unvalidated argument into the route issue exactly
    one, unless the conversion of the argument to a string throws (an
    object with an own [toString] property, or an array holding one): the
    method then rejects with the [TypeError] and sends nothing. *)
Theorem facade_requests (op : operation) :
  (length (requests this op) <= 1)%nat
  /\ (forall o, In o (requests this op) ->
        method o = "GET" /\ json o = true
        /\ (exists r, uri o = baseURL this ++ r)
        /\ qs o !! "api-key" = Some (token this))
  /\ match op with
     | GetFinancialIndicators | GetStatementTypes | GetPeriodTypes =>
         requests this op = []
     | GetAllCompanies => length (requests this op) = 1%nat
     | GetCompanyIdByName v =>
         if ToString_throws v
         then getCompanyIdByName this v = reject TypeError
         else length (requests this op) = 1%nat
     | GetCompanyDataById v =>
         if ToString_throws v
         then getCompanyDataById this v = reject TypeError
         else length (requests this op) = 1%nat
     | GetAvailableCompanyStatements v =>
         if ToString_throws v
         then getAvailableCompanyStatements this v = reject TypeError
         else length (requests this op) = 1%nat
     | _ => True
     end.
Proof.
  destruct op as [ticker|name| |companyId|companyId
                  |companyId statementType periodType fiscalYear standardised
                  |companyId indicators| | |];
    cbn [requests].
  - unfold getCompanyIdByTicker.
    destruct (Joi.validate _ _); [nothing_sent | one_sent].
  - unfold getCompanyIdByName.
    destruct (ToString_throws name); [nothing_sent | one_sent].
  - one_sent.
  - unfold getCompanyDataById.
    destruct (ToString_throws companyId); [nothing_sent | one_sent].
  - unfold getAvailableCompanyStatements.
    destruct (ToString_throws companyId); [nothing_sent | one_sent].
  - rewrite getStatementData_unfold.
    destruct (_ && _); [one_sent | nothing_sent].
  - unfold getTTMFinancialRatios.
    destruct (Joi.validate _ _); [nothing_sent|].
    destruct (ToBoolean indicators); [destruct (call_join _ _)|];
      [one_sent | nothing_sent | one_sent].
  - nothing_sent.
  - nothing_sent.
  - nothing_sent.
Qed.
End RequestsInFull.

(** ** The constant getters against the validators *)

Section GettersAgainstValidators.
Context `{Runtime}.
Variable this : SimFin.


(** X14: the list returned by [getStatementTypes] is exactly the set of
    accepted statement types; every period type returned by
    [getPeriodTypes] is accepted, so any pair taken from the two getters
    makes a valid request with a valid id and year; but [getPeriodTypes]
    is not all that is accepted: ['TTM'] passes and is not listed. *)
Theorem getters_list_accepted_values
    (companyId statementType fiscalYear standardised : value) :
  (Joi.accepts (Joi.required simfinParameters.statementType) statementType
   = true
   <-> exists s, statementType = VString s /\ In s (result getStatementTypes))
  /\ (forall st pt,
        In st (result getStatementTypes) -> In pt (result getPeriodTypes) ->
        companyId_constraint companyId -> fiscalYear_constraint fiscalYear ->
        exists o,
          calls (getStatementData this companyId (VString st) (VString pt)
                   fiscalYear standardised) = [o])
  /\ periodType_constraint (VString "TTM")
  /\ ~ In "TTM" (result getPeriodTypes).
Proof.
  split; [apply statementType_accepts|]. split; [|split].
  - intros st pt Hst Hpt Hc Hf.
    rewrite getStatementData_valid; try assumption.
    + eexists. apply makeRequest_calls.
    + exists st. auto.
    + exists pt. auto.
  - exists "TTM". split; [reflexivity | right].
    apply RegExpFacts.matchb_spec. reflexivity.
  - simpl. intuition discriminate.
Qed.

(** X15: the [periodType] schema accepts a string exactly when it is one
    of the eight fixed codes or is [TTM], optionally followed by a dash
    and one or two decimal digits, optionally followed by a dot and one of
    0, 25, 5, 50, 75; no value of another type passes the required
    field. *)
Theorem periodType_accepts_shape (v : value) :
  Joi.accepts (Joi.required simfinParameters.periodType) v = true
  <-> exists s, v = VString s
                /\ (In s periodTypes \/ ttm_shape (list_ascii_of_string s)).
Proof.
  rewrite periodType_accepts. unfold periodType_constraint.
  split; intros (s & -> & Hs); exists s; (split; [reflexivity|]);
    destruct Hs as [Hin|Hm]; auto; right; apply ttm_pattern_language; exact Hm.
Qed.
End GettersAgainstValidators.

(** ** What the route and the query determine *)

Section RoundTrips.
Context `{Runtime}.
Variable this : SimFin.

Lemma append_nil_l (s : string) : "" ++ s = s.
Proof. reflexivity. Qed.

Lemma append_cons (c : ascii) (a s : string) :
  String c a ++ s = String c (a ++ s).
Proof. reflexivity. Qed.

Lemma comma_free_cons (c : ascii) (a : string) :
  comma_free (String c a) -> c <> ","%char /\ comma_free a.
Proof.
  unfold comma_free. simpl. intros Hfree. split.
  - intros ->. apply Hfree. left. reflexivity.
  - intros Hin. apply Hfree. right. exact Hin.
Qed.

(** Two comma-free heads before a comma are equal, and so are the rests. *)
Lemma comma_split (a b x y : string) :
  comma_free a -> comma_free b ->
  a ++ "," ++ x = b ++ "," ++ y -> a = b /\ x = y.
Proof.
  revert b. induction a as [|c a IH]; intros [|d b] Ha Hb Heq.
  - rewrite !append_nil_l, !append_cons, !append_nil_l in Heq.
    injection Heq as ->. auto.
  - rewrite append_nil_l, append_cons in Heq. injection Heq as <- _.
    apply comma_free_cons in Hb as [Hd _]. congruence.
  - rewrite append_nil_l, append_cons in Heq. injection Heq as -> _.
    apply comma_free_cons in Ha as [Hc _]. congruence.
  - rewrite !append_cons in Heq. injection Heq as -> Heq.
    apply comma_free_cons in Ha as [_ Ha].
    apply comma_free_cons in Hb as [_ Hb].
    destruct (IH b Ha Hb Heq) as [-> ->]. auto.
Qed.

Lemma comma_free_no_comma (a b y : string) :
  comma_free a -> a <> b ++ "," ++ y.
Proof.
  revert a. induction b as [|d b IH]; intros a Ha Heq.
  - rewrite append_nil_l in Heq. subst a. apply Ha. left. reflexivity.
  - rewrite append_cons in Heq. subst a.
    apply comma_free_cons in Ha as [_ Ha]. exact (IH _ Ha eq_refl).
Qed.

Lemma join_cons2 (sep p q : string) (rest : list string) :
  join sep (p :: q :: rest) = p ++ sep ++ join sep (q :: rest).
Proof. reflexivity. Qed.

(** Joining by commas loses nothing on non-empty comma-free parts. *)
Lemma join_comma_inj (l1 l2 : list string) :
  Forall (fun s => s <> "" /\ comma_free s) l1 ->
  Forall (fun s => s <> "" /\ comma_free s) l2 ->
  join "," l1 = join "," l2 -> l1 = l2.
Proof.
  intros H1. revert l2.
  induction H1 as [|a l1 [Hane Ha] Hl1 IH]; intros l2 H2 Heq.
  - destruct H2 as [|b l2 [Hbne Hb] Hl2]; [reflexivity|].
    destruct l2 as [|b' l2].
    + simpl in Heq. congruence.
    + rewrite join_cons2 in Heq. destruct b; [congruence|].
      rewrite append_cons in Heq. discriminate Heq.
  - destruct H2 as [|b l2 [Hbne Hb] Hl2].
    + destruct l1 as [|a' l1].
      * simpl in Heq. congruence.
      * rewrite join_cons2 in Heq. destruct a; [congruence|].
        rewrite append_cons in Heq. discriminate Heq.
    + destruct l1 as [|a' l1], l2 as [|b' l2].
      * simpl in Heq. congruence.
      * rewrite join_cons2 in Heq. change (join "," [a]) with a in Heq.
        exfalso. exact (comma_free_no_comma _ _ _ Ha Heq).
      * rewrite join_cons2 in Heq. change (join "," [b]) with b in Heq.
        exfalso. symmetry in Heq. exact (comma_free_no_comma _ _ _ Hb Heq).
      * rewrite !join_cons2 in Heq.
        apply comma_split in Heq as [-> Heq]; try assumption.
        f_equal. apply IH; assumption.
Qed.

Lemma indicator_code_plain (s : string) :
  indicator_code s -> s <> "" /\ comma_free s.
Proof.
  intros Hs. apply indicator_pattern_language in Hs
    as (c & digits & Hw & Hc & Hall & _).
  split.
  - intros ->. discriminate Hw.
  - unfold comma_free. rewrite Hw. intros [-> |[Hdash|Hin]].
    + unfold category_char in Hc.
      change (nat_of_ascii ","%char) with 44%nat in Hc. lia.
    + discriminate Hdash.
    + rewrite List.Forall_forall in Hall. apply Hall in Hin.
      unfold digit_char in Hin.
      change (nat_of_ascii ","%char) with 44%nat in Hin. lia.
Qed.

Lemma sent_indicators_joined (route joined : string) :
  sent_indicators
    (calls (makeRequest this route "GET"
              (Some {[ "indicators" := VString joined ]})))
  = Some (VString joined).
Proof.
  unfold sent_indicators. rewrite makeRequest_calls. cbn [qs spread].
  apply lookup_union_Some_l, lookup_singleton_eq.
Qed.

(** X16: the joined query determines the indicator codes: two arrays of
    valid codes that lead [getTTMFinancialRatios] to the same request are
    the same array, element by element and in the same order; so arrays
    that differ, be it only in the order of their codes, lead to different
    requests. *)
Theorem getTTMFinancialRatios_codes_from_query
    (companyId : value) (codes codes' : list string) :
  companyId_constraint companyId ->
  Forall indicator_code codes ->
  Forall indicator_code codes' ->
  (calls (getTTMFinancialRatios this companyId (VArray (map VString codes)))
   = calls (getTTMFinancialRatios this companyId (VArray (map VString codes')))
   -> codes = codes')
  /\ (codes <> codes' ->
      calls (getTTMFinancialRatios this companyId (VArray (map VString codes)))
      <> calls (getTTMFinancialRatios this companyId
                  (VArray (map VString codes')))).
Proof.
  intros Hc Hcodes Hcodes'.
  assert (Hinj :
            calls (getTTMFinancialRatios this companyId
                     (VArray (map VString codes)))
            = calls (getTTMFinancialRatios this companyId
                       (VArray (map VString codes')))
            -> codes = codes').
  { rewrite !getTTMFinancialRatios_array by assumption. intros Heq.
    apply (f_equal sent_indicators) in Heq.
    rewrite !sent_indicators_joined in Heq. injection Heq as Hjoin.
    apply join_comma_inj; [| |exact Hjoin];
      (eapply List.Forall_impl; [|eassumption]); apply indicator_code_plain. }
  split; [exact Hinj|].
  intros Hne Heq. apply Hne, Hinj, Heq.
Qed.
End RoundTrips.

Section CompanyIdInRoute.
Context `{Runtime}.
Variable this : SimFin.

Lemma to_int_proper (z : Z) :
  Z.to_int z <> Decimal.Pos Decimal.Nil /\ Z.to_int z <> Decimal.Neg Decimal.Nil.
Proof.
  destruct z as [|p|p]; simpl; split; try discriminate;
    intros [= Hnil]; exact (DecimalPos.Unsigned.to_uint_nonnil p Hnil).
Qed.

Lemma parse_decimal_decimal (z : Z) : parse_decimal (decimal z) = Some z.
Proof.
  unfold parse_decimal, decimal.
  destruct (to_int_proper z) as [Hpos Hneg].
  rewrite (NilZero.isi _ Hpos Hneg). simpl. rewrite DecimalZ.of_to.
  reflexivity.
Qed.

(** X17: [getCompanyDataById] puts a safe-integer id into the route as its
    decimal digits, from which the id reads back; so two ids that lead to
    the same request are the same id. *)
Theorem getCompanyDataById_id_from_route (companyId companyId' : Z) :
  safe_integer companyId ->
  safe_integer companyId' ->
  getCompanyDataById this (VInt companyId)
  = makeRequest this ("companies/id/" ++ decimal companyId) "GET" None
  /\ parse_decimal (decimal companyId) = Some companyId
  /\ (calls (getCompanyDataById this (VInt companyId))
      = calls (getCompanyDataById this (VInt companyId')) ->
      companyId = companyId').
Proof.
  intros Hz Hz'. unfold getCompanyDataById.
  change (ToString_throws (VInt companyId)) with false.
  change (ToString_throws (VInt companyId')) with false. cbv iota.
  rewrite !ToString_VInt by assumption.
  split; [reflexivity|]. split; [apply parse_decimal_decimal|].
  rewrite !makeRequest_calls. intros [= Huri].
  apply (inj (String.app (baseURL this))) in Huri.
  apply (inj (String.app "companies/id/")) in Huri.
  apply (f_equal parse_decimal) in Huri.
  rewrite !parse_decimal_decimal in Huri. congruence.
Qed.
End CompanyIdInRoute.

(** ** The further properties on concrete calls *)

Lemma statement_request_111052 :
  @statement_request_valid plain_runtime (VInt 111052) (VString "bs")
    (VString "Q3") (VInt 2016).
Proof.
  split; [exact companyId_111052|]. split; [|split].
  - exists "bs". split; [reflexivity | simpl; auto].
  - exists "Q3". split; [reflexivity | left; simpl; auto].
  - exists 2016. split; [exists (inject_Z 2016); split; reflexivity | lia].
Defined.

Lemma getStatementData_missing_field_witness :
  (In VUndefined [VInt 111052; VString "pl"; VUndefined; VInt 2017]
   \/ In VNull [VInt 111052; VString "pl"; VUndefined; VInt 2017])
  /\ rejected_unsent
       (@getStatementData plain_runtime client (VInt 111052) (VString "pl")
          VUndefined (VInt 2017) (VBool true)).
Proof.
  assert (Hmissing :
            In VUndefined [VInt 111052; VString "pl"; VUndefined; VInt 2017]
            \/ In VNull [VInt 111052; VString "pl"; VUndefined; VInt 2017])
    by (left; simpl; auto).
  split; [exact Hmissing|].
  exact (@getStatementData_missing_field plain_runtime client (VInt 111052)
           (VString "pl") VUndefined (VInt 2017) (VBool true) Hmissing).
Defined.

Lemma getStatementData_standardised_by_truthiness_witness :
  ToBoolean (VString "no") = ToBoolean (VInt 1)
  /\ @getStatementData plain_runtime client (VInt 111052) (VString "bs")
       (VString "Q3") (VInt 2016) (VString "no")
     = @getStatementData plain_runtime client (VInt 111052) (VString "bs")
         (VString "Q3") (VInt 2016) (VInt 1).
Proof.
  split; [reflexivity|].
  apply (@getStatementData_standardised_by_truthiness plain_runtime).
  reflexivity.
Defined.

Lemma getStatementData_query_witness :
  @statement_request_valid plain_runtime (VInt 111052) (VString "bs")
    (VString "Q3") (VInt 2016)
  /\ exists o,
       calls (@getStatementData plain_runtime client (VInt 111052)
                (VString "bs") (VString "Q3") (VInt 2016) VUndefined) = [o]
       /\ qs o = {[ "api-key" := VString "token";
                    "stype" := VString "bs";
                    "ptype" := VString "Q3";
                    "fyear" := VInt 2016 ]}
       /\ size (qs o) = 4%nat.
Proof.
  split; [exact statement_request_111052|].
  exact (@getStatementData_query plain_runtime client (VInt 111052)
           (VString "bs") (VString "Q3") (VInt 2016) VUndefined
           statement_request_111052).
Defined.

Lemma statementType_bs : statementType_constraint (VString "bs").
Proof. exists "bs". split; [reflexivity | simpl; auto]. Defined.

Lemma periodType_Q3 : periodType_constraint (VString "Q3").
Proof. exists "Q3". split; [reflexivity | left; simpl; auto]. Defined.

Lemma getStatementData_year_bounds_witness :
  (@companyId_constraint plain_runtime (VInt 111052)
   /\ statementType_constraint (VString "bs")
   /\ periodType_constraint (VString "Q3"))
  /\ ((exists o,
         calls (@getStatementData plain_runtime client (VInt 111052)
                  (VString "bs") (VString "Q3") (VInt 1900) VUndefined) = [o])
      <-> 1900 <= 1900 <= 2018)
  /\ ((exists o,
         calls (@getStatementData plain_runtime client (VInt 111052)
                  (VString "bs") (VString "Q3") (VInt 2019) VUndefined) = [o])
      <-> 1900 <= 2019 <= 2018).
Proof.
  split; [|split].
  - repeat split;
      [exact companyId_111052 | exact statementType_bs | exact periodType_Q3].
  - exact (@getStatementData_year_bounds plain_runtime client (VInt 111052)
             (VString "bs") (VString "Q3") VUndefined 1900
             companyId_111052 statementType_bs periodType_Q3).
  - exact (@getStatementData_year_bounds plain_runtime client (VInt 111052)
             (VString "bs") (VString "Q3") VUndefined 2019
             companyId_111052 statementType_bs periodType_Q3).
Defined.

Lemma ratios_request_sent :
  calls (@getTTMFinancialRatios plain_runtime client (VInt 111052)
           (VArray [VString "4-10"; VString "1-1"]))
  = [ {| method := "GET";
         uri := "https://simfin.com/api/v1/companies/id/111052/ratios";
         qs := {[ "api-key" := VString "token";
                  "indicators" := VString "4-10,1-1" ]};
         json := true |} ].
Proof. reflexivity. Defined.

Lemma getTTMFinancialRatios_requests_carry_codes_witness :
  calls (@getTTMFinancialRatios plain_runtime client (VInt 111052)
           (VArray [VString "4-10"; VString "1-1"]))
  = [ {| method := "GET";
         uri := "https://simfin.com/api/v1/companies/id/111052/ratios";
         qs := {[ "api-key" := VString "token";
                  "indicators" := VString "4-10,1-1" ]};
         json := true |} ]
  /\ @companyId_constraint plain_runtime (VInt 111052).
Proof.
  split; [exact ratios_request_sent|].
  exact (proj1 (@getTTMFinancialRatios_requests_carry_codes plain_runtime
                  client (VInt 111052)
                  (VArray [VString "4-10"; VString "1-1"]) _
                  ratios_request_sent)).
Defined.

Lemma bad_indicator_array :
  ~ Forall indicator_item [VString "1-1"; VString "5-1"].
Proof.
  intros Hall. apply List.Forall_inv_tail, List.Forall_inv in Hall.
  destruct Hall as (s & Hs & c & digits & Hw & Hc & _).
  injection Hs as <-. injection Hw as <- _.
  unfold category_char in Hc.
  change (nat_of_ascii "5"%char) with 53%nat in Hc. lia.
Defined.

Lemma getTTMFinancialRatios_rejects_witness :
  (exists items, VArray [VString "1-1"; VString "5-1"] = VArray items
                 /\ ~ Forall indicator_item items)
  /\ rejected_unsent
       (@getTTMFinancialRatios plain_runtime client (VInt 111052)
          (VArray [VString "1-1"; VString "5-1"])).
Proof.
  assert (Hbad : exists items,
             VArray [VString "1-1"; VString "5-1"] = VArray items
             /\ ~ Forall indicator_item items)
    by (eexists; split; [reflexivity | exact bad_indicator_array]).
  split; [exact Hbad|].
  apply (@getTTMFinancialRatios_rejects plain_runtime).
  right; left. exact Hbad.
Defined.

Lemma getTTMFinancialRatios_string_indicators_witness :
  "1-1,2-1" <> ""
  /\ calls (@getTTMFinancialRatios plain_runtime client (VInt 111052)
              (VString "1-1,2-1")) = [].
Proof.
  assert (Hne : "1-1,2-1" <> "") by discriminate.
  split; [exact Hne|].
  exact (proj1 (@getTTMFinancialRatios_string_indicators plain_runtime client
                  (VInt 111052) "1-1,2-1" Hne)).
Defined.



Lemma codes_cash_revenues : Forall indicator_code ["2-1"; "1-1"].
Proof.
  repeat constructor; apply RegExpFacts.matchb_spec; reflexivity.
Defined.

Lemma codes_swapped : ["1-1"; "2-1"] <> ["2-1"; "1-1"].
Proof. discriminate. Defined.

Lemma getTTMFinancialRatios_codes_from_query_witness :
  (@companyId_constraint plain_runtime (VInt 111052)
   /\ Forall indicator_code ["1-1"; "2-1"]
   /\ Forall indicator_code ["2-1"; "1-1"])
  /\ calls (@getTTMFinancialRatios plain_runtime client (VInt 111052)
              (VArray (map VString ["1-1"; "2-1"])))
     <> calls (@getTTMFinancialRatios plain_runtime client (VInt 111052)
                 (VArray (map VString ["2-1"; "1-1"]))).
Proof.
  split; [split; [exact companyId_111052 | split;
                  [exact codes_revenues_cash | exact codes_cash_revenues]]|].
  exact (proj2 (@getTTMFinancialRatios_codes_from_query plain_runtime client
                  (VInt 111052) ["1-1"; "2-1"] ["2-1"; "1-1"]
                  companyId_111052 codes_revenues_cash codes_cash_revenues)
           codes_swapped).
Defined.

Lemma safe_111052 : safe_integer 111052.
Proof. unfold safe_integer. simpl. lia. Defined.

Lemma safe_minus_7 : safe_integer (-7).
Proof. unfold safe_integer. simpl. lia. Defined.

Lemma getCompanyDataById_id_from_route_witness :
  (safe_integer 111052 /\ safe_integer (-7))
  /\ @getCompanyDataById plain_runtime client (VInt 111052)
     = makeRequest client "companies/id/111052" "GET" None
  /\ parse_decimal "111052" = Some 111052.
Proof.
  split; [split; [exact safe_111052 | exact safe_minus_7]|].
  pose proof (@getCompanyDataById_id_from_route plain_runtime client
                111052 (-7) safe_111052 safe_minus_7) as [Hroute [Hparse _]].
  split; [exact Hroute | exact Hparse].
Defined.

(** C7 as stated fails: 2^53 is an integer, and
    [getTTMFinancialRatios(9007199254740992, ['1-1', '2-1'])] is rejected
    with a validation error and sends nothing. *)
Lemma getTTMFinancialRatios_unsafe_integer_rejected :
  is_integer (inject_Z (2 ^ 53)) = true
  /\ rejected_unsent
       (@getTTMFinancialRatios plain_runtime client (VInt (2 ^ 53))
          (VArray [VString "1-1"; VString "2-1"])).
Proof. split; [reflexivity | split; reflexivity]. Qed.

(** C9 as stated fails: with the integer 2^53 as company id the empty array
    gets no request out either. *)
Lemma getTTMFinancialRatios_unsafe_integer_empty_rejected :
  is_integer (inject_Z (2 ^ 53)) = true
  /\ rejected_unsent
       (@getTTMFinancialRatios plain_runtime client (VInt (2 ^ 53))
          (VArray [])).
Proof. split; [reflexivity | split; reflexivity]. Qed.
